(** * main.py: a FastAPI application with two static JSON endpoints

    The program is

<<
    from fastapi import FastAPI

    app = FastAPI()

    @app.get("/")
    def root():
        return {"status": "running", "message": "GKE app deployed securely using Terraform + OIDC"}

    @app.get("/health")
    def health():
        return {"health": "ok"}
>>

    The two functions are embedded as heap-passing Python functions, the
    module body as the sequence of registrations it performs on the
    application object, and the part of FastAPI / Starlette that main.py
    relies on (route construction, route matching, the router's dispatch
    loop with its redirect, the JSON response class, the default exception
    handlers and the attributes the application fills on first use) as
    executable definitions that keep the framework's names. *)

From Stdlib Require Import ZArith Ascii String List Bool Lia.
From stdpp Require Import base option list strings gmap.

Local Open Scope string_scope.
Local Open Scope Z_scope.

(** ** Python values, objects and calls *)

Module Py.

(** The values main.py builds: [str] objects and [dict] objects with
    [str] keys.  A dict keeps its items in insertion order, and the
    order is visible in the rendered body, so the items are an
    association list. *)
Unset Elimination Schemes.
Inductive value : Type :=
| VStr (s : string)
| VDict (items : list (string * value)).
Set Elimination Schemes.

(** Induction over a value and, for a dict, over each of its items. *)
Definition value_ind (P : value -> Prop)
    (HStr : forall s, P (VStr s))
    (HDict : forall items, Forall (fun kv => P (snd kv)) items -> P (VDict items)) :
  forall v, P v :=
  fix go (v : value) : P v :=
    match v with
    | VStr s => HStr s
    | VDict items =>
        HDict items
          ((fix go_items (l : list (string * value)) : Forall (fun kv => P (snd kv)) l :=
              match l with
              | [] => List.Forall_nil _
              | kv :: l' => @List.Forall_cons _ _ kv l' (go (snd kv)) (go_items l')
              end) items)
    end.

(** Object identities and the store of live objects. *)
Definition loc := positive.
Abbreviation heap := (gmap loc value).

(** The result of a call: a returned value or a raised exception
    (the exception's class name). *)
Inductive outcome (A : Type) : Type :=
| Returns (a : A)
| Raises (exc : string).
Arguments Returns {A} a.
Arguments Raises {A} exc.

(** A function of no arguments: it runs on the current store and, when
    it returns, gives the identity of the returned object and the store
    it leaves. *)
Definition pyfun := heap -> outcome (loc * heap).

(** Evaluating a display ([{...}]) constructs a new object: it gets an
    identity that no live object has. *)
Definition new_object (v : value) : pyfun :=
  fun h => let l := fresh (dom h) in Returns (l, <[l := v]> h).

End Py.

Export Py.

(** ** The handlers of main.py *)

(** [def root(): return {"status": "running", "message": "..."}] *)
Definition root_content : value :=
  VDict [("status", VStr "running");
         ("message", VStr "GKE app deployed securely using Terraform + OIDC")].

Definition root : pyfun := new_object root_content.

(** [def health(): return {"health": "ok"}] *)
Definition health_content : value :=
  VDict [("health", VStr "ok")].

Definition health : pyfun := new_object health_content.

(** ** JSON rendering

    [json.dumps(content, ensure_ascii=False, allow_nan=False, indent=None,
    separators=(",", ":")).encode("utf-8")], as [JSONResponse.render]
    calls it.  A [string] here is the sequence of UTF-8 bytes of the Python
    text, which [ensure_ascii=False] leaves as they are. *)

Module Json.

Definition dquote : ascii := "034"%char.
Definition backslash : ascii := "092"%char.

Definition str1 (c : ascii) : string := String c EmptyString.

(** One digit of [format(i, "04x")]. *)
Definition hexdigit (n : N) : ascii :=
  if (n <? 10)%N then ascii_of_N (48 + n) else ascii_of_N (87 + n).

(** [ESCAPE_DCT]: the two-character escapes, and [\u00XX] for the other
    characters below [0x20]; every other character stands for itself. *)
Definition escape_char (c : ascii) : string :=
  let n := N_of_ascii c in
  if (n =? 34)%N then String backslash (str1 dquote)
  else if (n =? 92)%N then String backslash (str1 backslash)
  else if (n =? 8)%N then String backslash "b"
  else if (n =? 12)%N then String backslash "f"
  else if (n =? 10)%N then String backslash "n"
  else if (n =? 13)%N then String backslash "r"
  else if (n =? 9)%N then String backslash "t"
  else if (n <? 32)%N then
    String backslash ("u00" ++ String (hexdigit (n / 16)) (str1 (hexdigit (n mod 16))))
  else str1 c.

Fixpoint escape (s : string) : string :=
  match s with
  | EmptyString => EmptyString
  | String c s' => escape_char c ++ escape s'
  end.

(** [py_encode_basestring]: the escaped text between double quotes. *)
Definition encode_basestring (s : string) : string :=
  String dquote (escape s ++ str1 dquote).

(** [separator.join(parts)] *)
Fixpoint join (sep : string) (parts : list string) : string :=
  match parts with
  | [] => EmptyString
  | [p] => p
  | p :: rest => p ++ sep ++ join sep rest
  end.

Fixpoint dumps (v : value) : string :=
  match v with
  | VStr s => encode_basestring s
  | VDict items =>
      "{" ++ join "," (map (fun kv => encode_basestring (fst kv) ++ ":" ++ dumps (snd kv)) items)
          ++ "}"
  end.

(** *** Reading a body back

    What a client does with the body ([json.loads]), for the texts
    [dumps] writes: strings and objects, no white space, and [\u]
    escapes of one-byte characters only. *)

Definition hexval (c : ascii) : option N :=
  let n := N_of_ascii c in
  if (48 <=? n)%N && (n <=? 57)%N then Some (n - 48)%N
  else if (97 <=? n)%N && (n <=? 102)%N then Some (n - 87)%N
  else if (65 <=? n)%N && (n <=? 70)%N then Some (n - 55)%N
  else None.

(** The character a two-character escape stands for. *)
Definition unescape_char (e : ascii) : option ascii :=
  let n := N_of_ascii e in
  if (n =? 34)%N then Some dquote
  else if (n =? 92)%N then Some backslash
  else if (n =? 47)%N then Some "/"%char
  else if (n =? 98)%N then Some "008"%char
  else if (n =? 102)%N then Some "012"%char
  else if (n =? 110)%N then Some "010"%char
  else if (n =? 114)%N then Some "013"%char
  else if (n =? 116)%N then Some "009"%char
  else None.

(** The text after an opening quote: the string it spells and the text
    after the closing quote. *)
Fixpoint scanstring (s : string) : option (string * string) :=
  match s with
  | EmptyString => None
  | String c rest =>
      if Ascii.eqb c dquote then Some (EmptyString, rest)
      else if Ascii.eqb c backslash then
        match rest with
        | EmptyString => None
        | String e rest1 =>
            if Ascii.eqb e "u" then
              match rest1 with
              | String a (String b (String x (String y rest2))) =>
                  match hexval a, hexval b, hexval x, hexval y with
                  | Some 0%N, Some 0%N, Some hi, Some lo =>
                      if (hi <? 8)%N then
                        match scanstring rest2 with
                        | Some (t, after) => Some (String (ascii_of_N (16 * hi + lo)) t, after)
                        | None => None
                        end
                      else None
                  | _, _, _, _ => None
                  end
              | _ => None
              end
            else
              match unescape_char e, scanstring rest1 with
              | Some ch, Some (t, after) => Some (String ch t, after)
              | _, _ => None
              end
        end
      else if (N_of_ascii c <? 32)%N then None
      else
        match scanstring rest with
        | Some (t, after) => Some (String c t, after)
        | None => None
        end
  end.

Fixpoint parse_value (fuel : nat) (s : string) : option (value * string) :=
  match fuel, s with
  | S fuel', String c rest =>
      if Ascii.eqb c dquote then
        match scanstring rest with
        | Some (t, after) => Some (VStr t, after)
        | None => None
        end
      else if Ascii.eqb c "{" then
        match rest with
        | String c' after =>
            if Ascii.eqb c' "}" then Some (VDict [], after)
            else
              match parse_members fuel' rest with
              | Some (items, after') => Some (VDict items, after')
              | None => None
              end
        | EmptyString => None
        end
      else None
  | _, _ => None
  end
with parse_members (fuel : nat) (s : string) : option (list (string * value) * string) :=
  match fuel, s with
  | S fuel', String c rest =>
      if Ascii.eqb c dquote then
        match scanstring rest with
        | Some (k, String colon rest1) =>
            if Ascii.eqb colon ":" then
              match parse_value fuel' rest1 with
              | Some (v, String sep rest2) =>
                  if Ascii.eqb sep "}" then Some ([(k, v)], rest2)
                  else if Ascii.eqb sep "," then
                    match parse_members fuel' rest2 with
                    | Some (items, after) => Some ((k, v) :: items, after)
                    | None => None
                    end
                  else None
              | _ => None
              end
            else None
        | _ => None
        end
      else None
  | _, _ => None
  end.

Definition loads (s : string) : option value :=
  match parse_value (S (String.length s)) s with
  | Some (v, EmptyString) => Some v
  | _ => None
  end.

(** One member of an object, as [dumps] writes it. *)
Definition member (kv : string * value) : string :=
  encode_basestring (fst kv) ++ ":" ++ dumps (snd kv).

(** Fuel that is enough for [parse_value] to read [dumps v] back. *)
Fixpoint need (v : value) : nat :=
  match v with
  | VStr _ => 1%nat
  | VDict items =>
      S ((fix go (l : list (string * value)) : nat :=
            match l with
            | [] => 0%nat
            | kv :: l' => S (Nat.max (need (snd kv)) (go l'))
            end) items)
  end.

Definition need_items (l : list (string * value)) : nat := pred (need (VDict l)).

End Json.

(** ** HTTP requests *)

(** What the ASGI server hands to the application for one HTTP request:
    [scope["method"]], [scope["path"]] (percent-decoded; [root_path] is
    empty, as [FastAPI()] and the server leave it), the raw query string,
    the headers and the body. *)
Record Request : Type := mkRequest {
  method : string;
  path : string;
  query_string : string;
  headers : list (string * string);
  body : string
}.

(** [query_string.decode()]: does the byte string decode as UTF-8?  The
    decoder is strict: no stray or missing continuation byte, no overlong
    form, no surrogate, nothing above U+10FFFF. *)
Definition between (lo hi : N) (c : ascii) : bool :=
  ((lo <=? N_of_ascii c) && (N_of_ascii c <=? hi))%N.

Fixpoint utf8_valid (s : string) : bool :=
  match s with
  | EmptyString => true
  | String c0 rest =>
      if between 0 127 c0 then utf8_valid rest
      else if between 194 223 c0 then
        match rest with
        | String c1 rest1 => between 128 191 c1 && utf8_valid rest1
        | _ => false
        end
      else if between 224 239 c0 then
        match rest with
        | String c1 (String c2 rest2) =>
            (if between 224 224 c0 then between 160 191 c1
             else if between 237 237 c0 then between 128 159 c1
             else between 128 191 c1)
            && between 128 191 c2 && utf8_valid rest2
        | _ => false
        end
      else if between 240 244 c0 then
        match rest with
        | String c1 (String c2 (String c3 rest3)) =>
            (if between 240 240 c0 then between 144 191 c1
             else if between 244 244 c0 then between 128 143 c1
             else between 128 191 c1)
            && between 128 191 c2 && between 128 191 c3 && utf8_valid rest3
        | _ => false
        end
      else false
  end.

(** ** Routes *)

(** The HTML pages FastAPI serves by itself. Their text comes from the
    framework and the application's title, and is not spelled out here. *)
Inductive FrameworkPage : Type :=
| swagger_ui_html
| swagger_ui_redirect
| redoc_html.

(** What a route runs: a path operation function of the program, the
    [openapi] endpoint that [setup()] defines, or one of the HTML pages. *)
Inductive Endpoint : Type :=
| PathOperation (f : pyfun)
| openapi
| Builtin (p : FrameworkPage).

Record Route : Type := mkRoute {
  route_path : string;
  route_methods : list string;
  endpoint : Endpoint
}.

(** [x in xs] on method names, and the truth value of a set of methods. *)
Definition mem (x : string) (xs : list string) : bool := existsb (String.eqb x) xs.

Definition nonempty (xs : list string) : bool :=
  match xs with [] => false | _ :: _ => true end.

(** [starlette.routing.Route(path, endpoint, methods)]: when GET is among
    the methods, HEAD is added.  The set of methods is kept as a list
    without repetition; the list's order stands for nothing. *)
Definition Starlette_Route (p : string) (e : Endpoint) (ms : list string) : Route :=
  {| route_path := p;
     route_methods := if mem "GET" ms then (if mem "HEAD" ms then ms else ms ++ ["HEAD"]) else ms;
     endpoint := e |}.

(** [fastapi.routing.APIRoute(path, endpoint, methods=methods)]: the
    constructor sets [self.methods] to the given methods and nothing more. *)
Definition APIRoute (p : string) (f : pyfun) (ms : list string) : Route :=
  {| route_path := p; route_methods := ms; endpoint := PathOperation f |}.

(** [self.methods and scope["method"] not in self.methods], the test of
    both [Route.matches] and [Route.handle]. *)
Definition method_not_allowed (r : Route) (m : string) : bool :=
  nonempty (route_methods r) && negb (mem m (route_methods r)).

Inductive Match : Type := NONE | PARTIAL | FULL.

Definition newline : string := String "010"%char EmptyString.

(** A path that [compile_path] takes letter by letter: it starts with a
    slash and has no brace, so it has no parameter. *)
Fixpoint no_brace (s : string) : bool :=
  match s with
  | EmptyString => true
  | String c s' => negb (Ascii.eqb c "{") && no_brace s'
  end.

Definition plain_path (p : string) : bool :=
  match p with
  | String c _ => Ascii.eqb c "/" && no_brace p
  | EmptyString => false
  end.

(** [compile_path(path)] for a path without parameters is the pattern
    [^path$], and [path_regex.match(s)] holds when [s] is the path, or the
    path and one line feed after it, where [$] also matches. *)
Definition path_regex_match (p s : string) : bool :=
  String.eqb s p || String.eqb s (p ++ newline).

(** [Route.matches(scope)] for an HTTP scope. *)
Definition matches (r : Route) (m p : string) : Match :=
  if path_regex_match (route_path r) p then
    if method_not_allowed r m
    then PARTIAL
    else FULL
  else NONE.

(** ** Responses *)

(** The schema [get_openapi(routes=...)] builds from the [APIRoute]s among
    the routes, in their order.  Its text is the framework's; what is kept
    of it is what it is built from. *)
Inductive OpenAPISchema : Type :=
| schema_of (operations : list Route).

Definition is_api_route (r : Route) : bool :=
  match endpoint r with
  | PathOperation _ => true
  | _ => false
  end.

Definition get_openapi (rs : list Route) : OpenAPISchema :=
  schema_of (filter (fun r => is_api_route r = true) rs).

Inductive Body : Type :=
| Bytes (b : string)
| Page (p : FrameworkPage)
| Schema (d : OpenAPISchema).

(** A response: status, raw headers (lower-case names, as
    [Response.init_headers] writes them) and body.  Left out are the
    [content-length] header, the [location] of a redirect (an absolute URL
    made from the scheme and host of the request) and the [allow] header
    of a route with several methods, whose order is that of a set. *)
Record Response : Type := mkResponse {
  status_code : Z;
  raw_headers : list (string * string);
  resp_body : Body
}.

(** [response.headers.get(name)] *)
Fixpoint header (name : string) (hs : list (string * string)) : option string :=
  match hs with
  | [] => None
  | (k, v) :: rest => if String.eqb k name then Some v else header name rest
  end.

(** [JSONResponse(content, status_code, headers)]: the given headers, then
    [content-type: application/json]; the body is rendered at once. *)
Definition JSONResponse (content : value) (status : Z) (hs : list (string * string)) : Response :=
  {| status_code := status;
     raw_headers := hs ++ [("content-type", "application/json")];
     resp_body := Bytes (Json.dumps content) |}.

(** [JSONResponse(self.openapi())] *)
Definition schema_response (d : OpenAPISchema) : Response :=
  {| status_code := 200;
     raw_headers := [("content-type", "application/json")];
     resp_body := Schema d |}.

Definition HTMLResponse (p : FrameworkPage) : Response :=
  {| status_code := 200;
     raw_headers := [("content-type", "text/html; charset=utf-8")];
     resp_body := Page p |}.

Definition PlainTextResponse (text : string) (status : Z) : Response :=
  {| status_code := status;
     raw_headers := [("content-type", "text/plain; charset=utf-8")];
     resp_body := Bytes text |}.

(** [RedirectResponse(url)]: status 307, empty body, no media type. *)
Definition RedirectResponse : Response :=
  {| status_code := 307; raw_headers := []; resp_body := Bytes EmptyString |}.

(** What [ServerErrorMiddleware] answers when an exception reaches it. *)
Definition server_error : Response := PlainTextResponse "Internal Server Error" 500.

(** [http.HTTPStatus(code).phrase], the default [detail] of an
    [HTTPException], for the two codes the router raises. *)
Definition phrase (code : Z) : string :=
  if code =? 404 then "Not Found"
  else if code =? 405 then "Method Not Allowed"
  else EmptyString.

(** FastAPI's [http_exception_handler] for a status that allows a body:
    [JSONResponse({"detail": exc.detail}, status_code, headers)]. *)
Definition http_exception_handler (code : Z) (hs : list (string * string)) : Response :=
  JSONResponse (VDict [("detail", VStr (phrase code))]) code hs.

(** The [Allow] header of a 405, [", ".join(self.methods)]: spelled out
    for a set of one method only. *)
Definition allow_header (ms : list string) : list (string * string) :=
  match ms with
  | [m] => [("allow", m)]
  | _ => []
  end.

(** [jsonable_encoder] on a [str] or on a [dict] with [str] keys: a new
    dict with the encoded keys and values, in the same order. *)
Fixpoint jsonable_encoder (v : value) : value :=
  match v with
  | VStr s => VStr s
  | VDict items => VDict (map (fun kv => (fst kv, jsonable_encoder (snd kv))) items)
  end.

(** ** The router *)

(** [s.endswith("/")] and [s.rstrip("/")] *)
Fixpoint endswith_slash (s : string) : bool :=
  match s with
  | EmptyString => false
  | String c EmptyString => Ascii.eqb c "/"
  | String _ s' => endswith_slash s'
  end.

Fixpoint rstrip_slash (s : string) : string :=
  match s with
  | EmptyString => EmptyString
  | String c s' =>
      match rstrip_slash s' with
      | EmptyString => if Ascii.eqb c "/" then EmptyString else String c EmptyString
      | t => String c t
      end
  end.

(** The path of [redirect_scope] when [redirect_slashes] is on. *)
Definition redirect_path (p : string) : string :=
  if endswith_slash p then rstrip_slash p else p ++ "/".

(** What [Router.app] does with a request. *)
Inductive Dispatch : Type :=
| Handle (r : Route)
| Redirect (target : string)
| NotFound.

(** The loop over [self.routes]: the first full match is handled at once;
    the first partial match is remembered and handled when no route
    matches fully. *)
Fixpoint route_loop (routes : list Route) (m p : string) (partial : option Route)
  : option Route :=
  match routes with
  | [] => partial
  | r :: rest =>
      match matches r m p with
      | FULL => Some r
      | PARTIAL => route_loop rest m p (match partial with None => Some r | Some _ => partial end)
      | NONE => route_loop rest m p partial
      end
  end.

(** The second loop: does any route match the redirect scope, fully or
    partially? *)
Definition matches_any (routes : list Route) (m p : string) : bool :=
  existsb (fun r => match matches r m p with NONE => false | _ => true end) routes.

Definition Router_app (routes : list Route) (req : Request) : Dispatch :=
  match route_loop routes (method req) (path req) None with
  | Some r => Handle r
  | None =>
      if negb (String.eqb (path req) "/")
         && matches_any routes (method req) (redirect_path (path req))
      then Redirect (redirect_path (path req))
      else NotFound
  end.

(** [URL(scope=redirect_scope)] followed by [RedirectResponse(url)]: the
    URL is made of the scheme, the host, the path and the query string
    decoded as UTF-8.  Only the decoding can fail; the
    [UnicodeDecodeError] then reaches [ServerErrorMiddleware]. *)
Definition redirect (req : Request) : Response :=
  if utf8_valid (query_string req) then RedirectResponse else server_error.

(** ** The application object *)

(** What [build_middleware_stack()] returns: the router inside the layers
    that turn exceptions into responses.  It is fixed by the
    application's configuration and nothing of it is spelled out. *)
Inductive MiddlewareStack : Type := default_stack.

(** The attributes of a [FastAPI] object that serving reads or writes:
    [app.router.routes], [app.middleware_stack] and [app.openapi_schema],
    the last two [None] until first needed. *)
Record FastAPI : Type := mkFastAPI {
  routes : list Route;
  middleware_stack : option MiddlewareStack;
  openapi_schema : option OpenAPISchema
}.

(** [app.add_route(path, endpoint)] and [app.add_api_route(path, endpoint,
    methods=...)] append to the routes. *)
Definition add_route (p : string) (e : Endpoint) (a : FastAPI) : FastAPI :=
  {| routes := routes a ++ [Starlette_Route p e ["GET"]];
     middleware_stack := middleware_stack a;
     openapi_schema := openapi_schema a |}.

Definition add_api_route (p : string) (f : pyfun) (ms : list string) (a : FastAPI) : FastAPI :=
  {| routes := routes a ++ [APIRoute p f ms];
     middleware_stack := middleware_stack a;
     openapi_schema := openapi_schema a |}.

(** [FastAPI()]: an empty router, then [setup()] with the default
    [openapi_url], [docs_url], [swagger_ui_oauth2_redirect_url] and
    [redoc_url]. *)
Definition FastAPI_init : FastAPI :=
  add_route "/redoc" (Builtin redoc_html)
    (add_route "/docs/oauth2-redirect" (Builtin swagger_ui_redirect)
       (add_route "/docs" (Builtin swagger_ui_html)
          (add_route "/openapi.json" openapi
             {| routes := []; middleware_stack := None; openapi_schema := None |}))).

(** [@app.get(path)] applied to [f]: registers [f] for GET and leaves the
    name bound to [f] itself. *)
Definition FastAPI_get (p : string) (f : pyfun) (a : FastAPI) : FastAPI :=
  add_api_route p f ["GET"] a.

(** The module body of main.py, statement by statement. *)
Definition app : FastAPI :=
  let app0 := FastAPI_init in
  let app1 := FastAPI_get "/" root app0 in
  FastAPI_get "/health" health app1.

(** [app.openapi()]: the schema is built on the first call and kept. *)
Definition FastAPI_openapi (a : FastAPI) : OpenAPISchema * FastAPI :=
  match openapi_schema a with
  | Some d => (d, a)
  | None =>
      let d := get_openapi (routes a) in
      (d, {| routes := routes a;
             middleware_stack := middleware_stack a;
             openapi_schema := Some d |})
  end.

(** The first lines of [Starlette.__call__]: the middleware stack is built
    on the first request and kept. *)
Definition ensure_middleware_stack (a : FastAPI) : FastAPI :=
  {| routes := routes a;
     middleware_stack :=
       match middleware_stack a with
       | None => Some default_stack
       | Some s => Some s
       end;
     openapi_schema := openapi_schema a |}.

(** ** Serving a request *)

(** The state of the running program: the object bound to [app] and the
    store of live objects. *)
Record State : Type := mkState {
  st_app : FastAPI;
  st_heap : gmap loc value
}.

(** The state once main.py is imported. *)
Definition initial : State := {| st_app := app; st_heap := ∅ |}.

(** The request handler FastAPI builds around a path operation function:
    call it, encode what it returns and make the [JSONResponse] with the
    default status 200.  An object the call created is referenced by the
    frames of this request only, and is reclaimed when they are gone; an
    object that was live before the call stays.  An exception reaches
    [ServerErrorMiddleware], which answers 500. *)
Definition run_path_operation (f : pyfun) (h : gmap loc value) : Response * gmap loc value :=
  match f h with
  | Returns (l, h') =>
      match h' !! l with
      | Some v =>
          (JSONResponse (jsonable_encoder v) 200 [],
           match h !! l with None => delete l h' | Some _ => h' end)
      | None => (server_error, h')
      end
  | Raises _ => (server_error, h)
  end.

(** Running the endpoint of a route. *)
Definition run_endpoint (e : Endpoint) (st : State) : Response * State :=
  match e with
  | PathOperation f =>
      let '(resp, h') := run_path_operation f (st_heap st) in
      (resp, {| st_app := st_app st; st_heap := h' |})
  | openapi =>
      let '(d, a') := FastAPI_openapi (st_app st) in
      (schema_response d, {| st_app := a'; st_heap := st_heap st |})
  | Builtin p => (HTMLResponse p, st)
  end.

(** [Route.handle]: a method outside [self.methods] raises
    [HTTPException(405, headers={"Allow": ", ".join(self.methods)})];
    otherwise the endpoint runs. *)
Definition Route_handle (r : Route) (m : string) (st : State) : Response * State :=
  if method_not_allowed r m
  then (http_exception_handler 405 (allow_header (route_methods r)), st)
  else run_endpoint (endpoint r) st.

(** One request from the server to the application and back. *)
Definition serve (st : State) (req : Request) : Response * State :=
  let st1 := {| st_app := ensure_middleware_stack (st_app st); st_heap := st_heap st |} in
  match Router_app (routes (st_app st1)) req with
  | Handle r => Route_handle r (method req) st1
  | Redirect _ => (redirect req, st1)
  | NotFound => (http_exception_handler 404 [], st1)
  end.

(** A history of requests, served one after the other. *)
Fixpoint serve_all (st : State) (reqs : list Request) : list Response * State :=
  match reqs with
  | [] => ([], st)
  | req :: rest =>
      let '(resp, st') := serve st req in
      let '(resps, st'') := serve_all st' rest in
      (resp :: resps, st'')
  end.

(** The request with the given method and path and nothing else. *)
Definition request (m p : string) : Request :=
  {| method := m; path := p; query_string := EmptyString; headers := []; body := EmptyString |}.

(** The response to [req] once the history [hs] has been served, and the
    state the history leaves. *)
Definition state_after (hs : list Request) : State := snd (serve_all initial hs).

Definition serve_after (hs : list Request) (req : Request) : Response :=
  fst (serve (state_after hs) req).

(** The two routes main.py registers. *)
Definition root_route : Route := APIRoute "/" root ["GET"].
Definition health_route : Route := APIRoute "/health" health ["GET"].

(** [req] reaches the endpoint of route [r]: the router hands it to [r]
    and [r] accepts its method. *)
Definition served_by (r : Route) (a : FastAPI) (req : Request) : Prop :=
  Router_app (routes a) req = Handle r /\
  method_not_allowed r (method req) = false.

(** The paths some route of the application is registered under. *)
Definition registered_paths (a : FastAPI) : list string := map route_path (routes a).

(** [p] is spelled like a registered path, with or without the line feed
    that the pattern lets through. *)
Definition names_route (a : FastAPI) (p : string) : bool :=
  existsb (fun q => path_regex_match q p) (registered_paths a).

(** The response to a request on the freshly imported program. *)
Definition response (req : Request) : Response := fst (serve initial req).

(** The response of a route of main.py's application to a method. *)
Definition route_response (r : Route) (m : string) : Response :=
  fst (Route_handle r m initial).

(** The application object while the program runs: the routes of main.py;
    the schema, once built, is the schema of these routes. *)
Definition running (a : FastAPI) : Prop :=
  routes a = routes app /\
  (openapi_schema a = None \/ openapi_schema a = Some (get_openapi (routes app))).

(** Requests used as examples: they carry a query string, headers and a
    body, which no route looks at. *)
Definition root_probe : Request :=
  mkRequest "GET" "/" "verbose=1" [("accept", "application/json")] "ignored".

Definition health_probe : Request :=
  mkRequest "GET" "/health" "probe=liveness" [("user-agent", "kube-probe")] EmptyString.

Definition root_post : Request :=
  mkRequest "POST" "/" EmptyString [("content-type", "text/plain")] "x=1".

(** A query string that is not UTF-8: the byte 0xFF. *)
Definition bad_query : string := String "255"%char EmptyString.

(** [n] slashes in a row. *)
Fixpoint slashes (n : nat) : string :=
  match n with
  | O => EmptyString
  | S n' => String "/" (slashes n')
  end.

(** main.py with its two registrations in the other order. *)
Definition app_swapped : FastAPI :=
  let app0 := FastAPI_init in
  let app1 := FastAPI_get "/health" health app0 in
  FastAPI_get "/" root app1.

(** The methods the application serves on a registered path: GET on every
    route, HEAD on the routes [FastAPI()] registered itself. *)
Definition method_served (m p : string) : bool :=
  String.eqb m "GET" || (String.eqb m "HEAD" && names_route FastAPI_init p).

(** The two path operation functions of main.py with the dict each one
    builds. *)
Definition handlers : list (pyfun * value) :=
  [(root, root_content); (health, health_content)].

(** Does the router hand [req] to a route whose endpoint is [openapi]? *)
Definition reaches_openapi (a : FastAPI) (req : Request) : bool :=
  match Router_app (routes a) req with
  | Handle r => match endpoint r with openapi => true | _ => false end
  | _ => false
  end.

(** * Properties *)

(** ** Objects and calls *)

Section Calls.

Implicit Types (h : gmap loc value) (v : value).

Lemma fresh_unused h : h !! fresh (dom h) = None.
Proof. apply not_elem_of_dom, is_fresh. Qed.

Lemma new_object_spec v h :
  exists l, new_object v h = Returns (l, <[l := v]> h) /\ h !! l = None.
Proof. exists (fresh (dom h)). split; [reflexivity | apply fresh_unused]. Qed.

(** A path operation that only builds its result answers 200 with the
    encoded result and leaves the store as it found it. *)
Lemma run_new_object v h :
  run_path_operation (new_object v) h = (JSONResponse (jsonable_encoder v) 200 [], h).
Proof.
  unfold run_path_operation, new_object.
  rewrite lookup_insert_eq, fresh_unused. f_equal.
  apply delete_insert_id, fresh_unused.
Qed.

End Calls.

(** ** Reading back what [dumps] writes *)

Section RoundTrip.

Import Json.
Local Arguments String.append : simpl nomatch.

Lemma scanstring_escape_char c rest :
  scanstring (escape_char c ++ rest) =
  match scanstring rest with Some (t, after) => Some (String c t, after) | None => None end.
Proof.
  destruct c as [[] [] [] [] [] [] [] []]; reflexivity.
Qed.

Lemma string_app_assoc (a b c : string) : (a ++ b) ++ c = a ++ (b ++ c).
Proof. induction a as [|x a IH]; simpl; [reflexivity | now rewrite IH]. Qed.

Lemma string_app_length (a b : string) :
  String.length (a ++ b) = (String.length a + String.length b)%nat.
Proof. induction a as [|x a IH]; simpl; [reflexivity | now rewrite IH]. Qed.

Lemma scanstring_escape s rest :
  scanstring (escape s ++ String dquote rest) = Some (s, rest).
Proof.
  induction s as [|c s IH]; simpl.
  - reflexivity.
  - now rewrite string_app_assoc, scanstring_escape_char, IH.
Qed.

Lemma encode_basestring_app s rest :
  encode_basestring s ++ rest = String dquote (escape s ++ String dquote rest).
Proof.
  unfold encode_basestring, str1. simpl. now rewrite string_app_assoc.
Qed.

Lemma dumps_dict items :
  dumps (VDict items) = "{" ++ join "," (map member items) ++ "}".
Proof. reflexivity. Qed.

Lemma member_app k v rest :
  member (k, v) ++ rest
  = String dquote (escape k ++ String dquote (String ":" (dumps v ++ rest))).
Proof.
  unfold member. cbn [fst snd].
  now rewrite string_app_assoc, encode_basestring_app, string_app_assoc.
Qed.

Lemma parse_members_quote fuel k tail :
  parse_members (S fuel) (String dquote (escape k ++ String dquote (String ":" tail)))
  = match parse_value fuel tail with
    | Some (v, String sep rest2) =>
        if Ascii.eqb sep "}" then Some ([(k, v)], rest2)
        else if Ascii.eqb sep "," then
          match parse_members fuel rest2 with
          | Some (items, after) => Some ((k, v) :: items, after)
          | None => None
          end
        else None
    | _ => None
    end.
Proof.
  cbn [parse_members]. rewrite Ascii.eqb_refl, scanstring_escape. reflexivity.
Qed.

Lemma parse_members_step fuel k v items rest :
  (forall r, parse_value fuel (dumps v ++ r) = Some (v, r)) ->
  (items <> [] ->
   parse_members fuel (join "," (map member items) ++ String "}" rest) = Some (items, rest)) ->
  parse_members (S fuel) (join "," (map member ((k, v) :: items)) ++ String "}" rest)
  = Some ((k, v) :: items, rest).
Proof.
  intros Hv Hm.
  destruct items as [|kv items].
  - change (join "," (map member [(k, v)])) with (member (k, v)).
    rewrite member_app, parse_members_quote, Hv. reflexivity.
  - change (join "," (map member ((k, v) :: kv :: items)))
      with (member (k, v) ++ "," ++ join "," (map member (kv :: items))).
    rewrite string_app_assoc, member_app, parse_members_quote.
    rewrite string_app_assoc, Hv.
    change ("," ++ ?x) with (String "," x).
    cbn [append Ascii.eqb Bool.eqb].
    rewrite Hm by discriminate. reflexivity.
Qed.

Lemma parse_value_str fuel s rest :
  parse_value (S fuel) (dumps (VStr s) ++ rest) = Some (VStr s, rest).
Proof.
  cbn [dumps]. rewrite encode_basestring_app. cbn [parse_value].
  rewrite Ascii.eqb_refl, scanstring_escape. reflexivity.
Qed.

Lemma parse_value_brace fuel t :
  parse_value (S fuel) (String "{" (String dquote t))
  = match parse_members fuel (String dquote t) with
    | Some (items, after) => Some (VDict items, after)
    | None => None
    end.
Proof. reflexivity. Qed.

Lemma members_head kv items r :
  exists t, join "," (map member (kv :: items)) ++ r = String dquote t.
Proof.
  destruct kv as [k v]. destruct items as [|kv' items].
  - change (join "," (map member [(k, v)])) with (member (k, v)).
    rewrite member_app. eauto.
  - change (join "," (map member ((k, v) :: kv' :: items)))
      with (member (k, v) ++ "," ++ join "," (map member (kv' :: items))).
    rewrite string_app_assoc, member_app. eauto.
Qed.

Lemma parse_roundtrip v :
  forall fuel rest, (need v <= fuel)%nat -> parse_value fuel (dumps v ++ rest) = Some (v, rest).
Proof.
  induction v as [s | items IH] using value_ind; intros fuel rest Hf.
  - destruct fuel as [|fuel]; [cbn in Hf; lia|]. apply parse_value_str.
  - assert (M : forall fuel rest, items <> [] -> (need_items items <= fuel)%nat ->
               parse_members fuel (join "," (map member items) ++ String "}" rest)
               = Some (items, rest)).
    { clear Hf fuel rest. induction IH as [|[k v] items Hv _ IHitems]; intros fuel rest Hne Hf.
      - congruence.
      - destruct fuel as [|fuel]; [cbn in Hf; lia|].
        apply parse_members_step.
        + intros r. apply Hv. unfold need_items in Hf. cbn in Hf. cbn. lia.
        + intros Hne'. apply IHitems; [exact Hne'|].
          unfold need_items in *. cbn in Hf. cbn. lia. }
    destruct fuel as [|fuel]; [cbn in Hf; lia|].
    destruct items as [|kv items].
    + reflexivity.
    + rewrite dumps_dict.
      rewrite !string_app_assoc.
      change ("{" ++ ?x) with (String "{" x).
      change ("}" ++ ?x) with (String "}" x).
      destruct (members_head kv items (String "}" rest)) as [t Ht].
      specialize (M fuel rest). rewrite Ht in M |- *.
      rewrite parse_value_brace, M; [reflexivity | discriminate |].
      unfold need_items. cbn in Hf |- *. lia.
Qed.

Lemma need_length v : (need v <= String.length (dumps v))%nat.
Proof.
  induction v as [s | items IH] using value_ind.
  - cbn. lia.
  - rewrite dumps_dict. change ("{" ++ ?x) with (String "{" x). cbn [String.length need].
    apply le_n_S. rewrite string_app_length.
    induction IH as [|[k v] items Hv _ IHitems]; [cbn; lia|].
    destruct items as [|kv items].
    + change (join "," (map member [(k, v)])) with (member (k, v)).
      unfold member. cbn [fst snd]. rewrite !string_app_length. cbn in *. lia.
    + change (join "," (map member ((k, v) :: kv :: items)))
        with (member (k, v) ++ "," ++ join "," (map member (kv :: items))).
      unfold member at 1. cbn [fst snd]. rewrite !string_app_length.
      cbn [snd] in Hv.
      cbn in *. lia.
Qed.

(** Every text [dumps] writes reads back as the value it was written
    from. *)
Lemma loads_dumps v : loads (dumps v) = Some v.
Proof.
  unfold loads.
  assert (E : dumps v = dumps v ++ EmptyString).
  { generalize (dumps v). intros s. induction s as [|c s IH]; simpl; [reflexivity | now rewrite <- IH]. }
  rewrite E at 2. rewrite parse_roundtrip; [reflexivity|].
  assert (H := need_length v). lia.
Qed.

End RoundTrip.

(** The body of a [JSONResponse] is a JSON text and spells its content. *)
Lemma JSONResponse_reads_back content status hs :
  exists b, resp_body (JSONResponse content status hs) = Bytes b /\
            Json.loads b = Some content.
Proof. eexists. split; [reflexivity | apply loads_dumps]. Qed.

(** ** The router's loop *)

Section Router.

Variables (m p : string).

Lemma route_loop_In rs partial r :
  route_loop rs m p partial = Some r -> In r rs \/ partial = Some r.
Proof.
  revert partial. induction rs as [|r0 rs IH]; simpl; intros partial H.
  - now right.
  - destruct (matches r0 m p) eqn:E.
    + apply IH in H as [H|H]; auto.
    + apply IH in H as [H|H]; auto.
      destruct partial; [now right | left; left; congruence].
    + left; left; congruence.
Qed.

(** The route the loop picks does match, fully or partially. *)
Lemma route_loop_matches rs r :
  route_loop rs m p None = Some r -> In r rs /\ matches r m p <> NONE.
Proof.
  assert (G : forall partial,
             match partial with Some r0 => matches r0 m p <> NONE | None => True end ->
             route_loop rs m p partial = Some r -> matches r m p <> NONE).
  { induction rs as [|r0 rs' IH]; simpl; intros partial Hp H.
    - subst partial. exact Hp.
    - destruct (matches r0 m p) eqn:E.
      + eapply IH; eauto.
      + eapply IH; [|exact H]. destruct partial; [exact Hp | congruence].
      + injection H as <-. congruence. }
  intros H. split.
  - apply route_loop_In in H as [H|H]; [exact H | discriminate].
  - eapply G; [|exact H]. exact I.
Qed.

(** No route is picked exactly when no route matches at all. *)
Lemma route_loop_None rs :
  route_loop rs m p None = None <-> matches_any rs m p = false.
Proof.
  assert (G : forall partial,
             route_loop rs m p partial = None <->
             partial = None /\ matches_any rs m p = false).
  { induction rs as [|r0 rs' IH]; intros partial; simpl.
    - unfold matches_any; simpl. tauto.
    - unfold matches_any in *; simpl. destruct (matches r0 m p) eqn:E; simpl.
      + apply IH.
      + rewrite IH. destruct partial; split; intros [? ?]; congruence.
      + split; [congruence | intros [_ ?]; congruence]. }
  rewrite G. tauto.
Qed.

Lemma matches_NONE r : matches r m p = NONE <-> path_regex_match (route_path r) p = false.
Proof.
  unfold matches. destruct (path_regex_match _ _).
  - destruct (method_not_allowed r m); split; congruence.
  - tauto.
Qed.

Lemma matches_any_false rs :
  matches_any rs m p = false <->
  Forall (fun q => path_regex_match q p = false) (map route_path rs).
Proof.
  unfold matches_any. induction rs as [|r rs IH]; simpl.
  - split; [constructor | reflexivity].
  - rewrite orb_false_iff, IH, Forall_cons.
    assert (M := matches_NONE r).
    destruct (matches r m p); split; intros [? ?]; split; try tauto; try congruence;
      try (apply M; assumption); exfalso;
      match goal with H : path_regex_match _ _ = false |- _ => apply M in H; discriminate end.
Qed.

End Router.

Lemma path_regex_match_spec q s :
  path_regex_match q s = true <-> s = q \/ s = q ++ newline.
Proof.
  unfold path_regex_match. rewrite orb_true_iff, !String.eqb_eq. tauto.
Qed.

(** ** The application of main.py *)

Lemma app_routes :
  routes app =
    [ Starlette_Route "/openapi.json" openapi ["GET"];
      Starlette_Route "/docs" (Builtin swagger_ui_html) ["GET"];
      Starlette_Route "/docs/oauth2-redirect" (Builtin swagger_ui_redirect) ["GET"];
      Starlette_Route "/redoc" (Builtin redoc_html) ["GET"];
      root_route;
      health_route ].
Proof. reflexivity. Qed.

Lemma app_registered_paths :
  registered_paths app =
    ["/openapi.json"; "/docs"; "/docs/oauth2-redirect"; "/redoc"; "/"; "/health"].
Proof. reflexivity. Qed.

(** ** What serving keeps *)

Lemma running_app : running app.
Proof. split; [reflexivity | now left]. Qed.

Lemma running_ensure a : running a -> running (ensure_middleware_stack a).
Proof. intros [R C]. split; assumption. Qed.

(** In a running application the schema served is the schema of main.py's
    routes, whether it is built now or was built before. *)
Lemma FastAPI_openapi_running a :
  running a ->
  exists a', FastAPI_openapi a = (get_openapi (routes app), a') /\
             running a' /\
             middleware_stack a' = middleware_stack a /\
             openapi_schema a' = Some (get_openapi (routes app)).
Proof.
  intros [R [C|C]]; unfold FastAPI_openapi; rewrite C.
  - rewrite R. eexists. split; [reflexivity|].
    repeat split; cbn; auto.
  - exists a. repeat split; auto.
Qed.

(** Handling a request in a route of main.py's application gives the same
    response whatever the store and the caches, gives the store back
    unchanged and keeps the application running. *)
Lemma Route_handle_running r m a h :
  running a ->
  In r (routes app) ->
  exists a',
    Route_handle r m {| st_app := a; st_heap := h |}
    = (route_response r m, {| st_app := a'; st_heap := h |}) /\
    running a' /\
    middleware_stack a' = middleware_stack a.
Proof.
  intros Ha Hin. unfold route_response, Route_handle.
  destruct (method_not_allowed r m).
  - exists a. repeat split; auto; apply Ha.
  - rewrite app_routes in Hin. simpl in Hin.
    destruct Hin as [<-|[<-|[<-|[<-|[<-|[<-|[]]]]]]];
      cbn [endpoint Starlette_Route root_route health_route APIRoute run_endpoint
           st_app st_heap initial].
    + destruct (FastAPI_openapi_running a Ha) as (a' & E & Ra & Ma & _).
      destruct (FastAPI_openapi_running app running_app) as (a0 & E0 & _).
      rewrite E, E0. exists a'. repeat split; auto; apply Ra.
    + exists a. repeat split; auto; apply Ha.
    + exists a. repeat split; auto; apply Ha.
    + exists a. repeat split; auto; apply Ha.
    + unfold root. rewrite !run_new_object. exists a. repeat split; auto; apply Ha.
    + unfold health. rewrite !run_new_object. exists a. repeat split; auto; apply Ha.
Qed.

Lemma Router_app_In rs req r : Router_app rs req = Handle r -> In r rs.
Proof.
  unfold Router_app. destruct (route_loop _ _ _ _) as [r'|] eqn:L.
  - intros [= <-]. now apply route_loop_matches in L.
  - destruct (_ && _); discriminate.
Qed.

(** Serving one request in a running application. *)
Lemma serve_cases a h req :
  running a ->
  exists a',
    running a' /\
    middleware_stack a' = Some (match middleware_stack a with
                                | None => default_stack
                                | Some s => s
                                end) /\
    snd (serve {| st_app := a; st_heap := h |} req) = {| st_app := a'; st_heap := h |} /\
    fst (serve {| st_app := a; st_heap := h |} req) =
      match Router_app (routes app) req with
      | Handle r => route_response r (method req)
      | Redirect _ => redirect req
      | NotFound => http_exception_handler 404 []
      end.
Proof.
  intros Ha. unfold serve. cbn [st_app st_heap].
  assert (He := running_ensure a Ha).
  assert (Hm : middleware_stack (ensure_middleware_stack a)
               = Some (match middleware_stack a with None => default_stack | Some s => s end)).
  { cbn. now destruct (middleware_stack a). }
  replace (routes (ensure_middleware_stack a)) with (routes app) by (symmetry; apply He).
  destruct (Router_app (routes app) req) as [r| |] eqn:E.
  - destruct (Route_handle_running r (method req) _ h He (Router_app_In _ _ _ E))
      as (a' & -> & Ra & Ma).
    exists a'. rewrite Ma. auto.
  - exists (ensure_middleware_stack a). auto.
  - exists (ensure_middleware_stack a). auto.
Qed.

(** The response is that of the freshly imported program. *)
Lemma serve_running a h req :
  running a ->
  exists a',
    serve {| st_app := a; st_heap := h |} req = (response req, {| st_app := a'; st_heap := h |})
    /\ running a'.
Proof.
  intros Ha.
  destruct (serve_cases a h req Ha) as (a' & Ra & _ & S & F).
  destruct (serve_cases app ∅ req running_app) as (_ & _ & _ & _ & F0).
  exists a'. split; [|exact Ra].
  unfold response, initial. rewrite F0, <- F, <- S. now destruct (serve _ req).
Qed.

Lemma serve_all_running a h hs :
  running a ->
  exists a',
    serve_all {| st_app := a; st_heap := h |} hs
    = (map response hs, {| st_app := a'; st_heap := h |})
    /\ running a'.
Proof.
  revert a. induction hs as [|req hs IH]; intros a Ha; simpl.
  - exists a. auto.
  - destruct (serve_running a h req Ha) as (a1 & -> & R1).
    destruct (IH a1 R1) as (a2 & -> & R2).
    exists a2. auto.
Qed.

Lemma state_after_running hs :
  running (st_app (state_after hs)) /\ st_heap (state_after hs) = st_heap initial.
Proof.
  unfold state_after, initial.
  destruct (serve_all_running app ∅ hs running_app) as (a' & -> & R). auto.
Qed.

Lemma serve_after_response hs req : serve_after hs req = response req.
Proof.
  unfold serve_after. destruct (state_after_running hs) as [R _].
  destruct (state_after hs) as [a h]. cbn in R.
  destruct (serve_running a h req R) as (a' & -> & _). reflexivity.
Qed.

Lemma response_cases req :
  match Router_app (routes app) req with
  | Handle r => In r (routes app) /\ response req = route_response r (method req)
  | Redirect _ => response req = redirect req
  | NotFound => response req = http_exception_handler 404 []
  end.
Proof.
  destruct (serve_cases app ∅ req running_app) as (_ & _ & _ & _ & F).
  fold initial in F. fold (response req) in F.
  destruct (Router_app (routes app) req) as [r| |] eqn:E; try exact F.
  split; [now apply Router_app_In in E | exact F].
Qed.

(** The router and the routes look at the method and the path; a redirect
    also looks at the query string. *)
Lemma response_ext req :
  response req
  = response (mkRequest (method req) (path req) (query_string req) [] EmptyString).
Proof. destruct req. reflexivity. Qed.

Lemma names_route_spec a p :
  names_route a p = true <->
  exists q, In q (registered_paths a) /\ (p = q \/ p = q ++ newline).
Proof.
  unfold names_route. rewrite existsb_exists.
  split; intros (q & Hq & H); exists q; (split; [exact Hq|]); now apply path_regex_match_spec.
Qed.

Lemma names_route_false a p :
  names_route a p = false <->
  Forall (fun q => path_regex_match q p = false) (registered_paths a).
Proof.
  unfold names_route. induction (registered_paths a) as [|q l IH]; simpl.
  - split; [constructor | reflexivity].
  - rewrite orb_false_iff, IH, Forall_cons. tauto.
Qed.

(** Some requests and their responses. *)

Example get_nonexistent : status_code (response (request "GET" "/nonexistent")) = 404.
Proof. reflexivity. Qed.

Example get_docs : response (request "GET" "/docs") = HTMLResponse swagger_ui_html.
Proof. reflexivity. Qed.

Example get_openapi_json :
  response (request "GET" "/openapi.json")
  = schema_response (schema_of [root_route; health_route]).
Proof. reflexivity. Qed.

Example get_health_slash : response (request "GET" "/health/") = RedirectResponse.
Proof. reflexivity. Qed.

Example get_health_slash_bad_query :
  response (mkRequest "GET" "/health/" bad_query [] EmptyString) = server_error.
Proof. reflexivity. Qed.

(** The strict decoder on a few byte strings: plain ASCII, a two-byte
    character, a lone byte 0xFF, an overlong form (C0 80), a surrogate
    (ED A0 80), a truncated character and a code point above U+10FFFF
    (F4 90 80 80). *)
Example utf8_valid_samples :
  utf8_valid "probe=liveness" = true /\
  utf8_valid (String "195" (String "169" EmptyString)) = true /\
  utf8_valid bad_query = false /\
  utf8_valid (String "192" (String "128" EmptyString)) = false /\
  utf8_valid (String "237" (String "160" (String "128" EmptyString))) = false /\
  utf8_valid (String "226" (String "130" EmptyString)) = false /\
  utf8_valid (String "244" (String "144" (String "128" (String "128" EmptyString)))) = false.
Proof. repeat split; reflexivity. Qed.

Example get_health_linefeed :
  response (request "GET" ("/health" ++ newline)) = JSONResponse health_content 200 [].
Proof. reflexivity. Qed.

Example head_docs : status_code (response (request "HEAD" "/docs")) = 200.
Proof. reflexivity. Qed.

Example head_root :
  response (request "HEAD" "/") = http_exception_handler 405 [("allow", "GET")].
Proof. reflexivity. Qed.

(** ** What the router does, by the spelling of the path *)

Lemma matches_any_names a m p : matches_any (routes a) m p = names_route a p.
Proof.
  destruct (names_route a p) eqn:N.
  - destruct (matches_any (routes a) m p) eqn:M; [reflexivity|].
    apply matches_any_false in M. apply names_route_false in M. congruence.
  - apply matches_any_false. now apply names_route_false.
Qed.

Lemma Router_app_spec a req :
  match Router_app (routes a) req with
  | Handle r => In r (routes a) /\ matches r (method req) (path req) <> NONE
  | Redirect t =>
      t = redirect_path (path req) /\ path req <> "/" /\
      names_route a (path req) = false /\ names_route a t = true
  | NotFound =>
      names_route a (path req) = false /\
      (path req = "/" \/ names_route a (redirect_path (path req)) = false)
  end.
Proof.
  unfold Router_app.
  destruct (route_loop _ _ _ _) as [r|] eqn:L.
  - now apply route_loop_matches.
  - apply route_loop_None in L. rewrite matches_any_names in L.
    rewrite matches_any_names.
    destruct (String.eqb_spec (path req) "/") as [E|E]; simpl.
    + split; [exact L | now left].
    + destruct (names_route a (redirect_path (path req))) eqn:R.
      * repeat split; assumption.
      * split; [exact L | now right].
Qed.

(** A route of the application answers 200 or 405. *)
Lemma route_status r m :
  In r (routes app) ->
  status_code (route_response r m) = if method_not_allowed r m then 405 else 200.
Proof.
  rewrite app_routes. unfold route_response. simpl.
  intros [<-|[<-|[<-|[<-|[<-|[<-|[]]]]]]]; unfold Route_handle;
    destruct (method_not_allowed _ m); reflexivity.
Qed.

Lemma redirect_status req : status_code (redirect req) = 307 \/ status_code (redirect req) = 500.
Proof. unfold redirect. destruct (utf8_valid _); auto. Qed.

(** The requests answered with 404 are exactly those whose path, as it is
    and with the trailing slash toggled, is spelled like no registered
    path. *)
Lemma not_found_iff req :
  status_code (response req) = 404 <->
  names_route app (path req) = false /\ names_route app (redirect_path (path req)) = false.
Proof.
  assert (S := Router_app_spec app req). assert (C := response_cases req).
  destruct (Router_app (routes app) req) as [r|t|].
  - destruct S as [Hin Hm]. destruct C as [_ ->]. rewrite (route_status r _ Hin).
    split.
    + destruct (method_not_allowed r (method req)); discriminate.
    + intros [N _]. exfalso. apply Hm, matches_NONE.
      apply names_route_false in N. unfold registered_paths in N.
      rewrite Forall_forall in N. apply N. apply list_elem_of_In. now apply in_map.
  - destruct S as (Ht & _ & _ & R). rewrite Ht in R. rewrite C.
    split.
    + destruct (redirect_status req) as [E|E]; rewrite E; discriminate.
    + intros [_ N]. rewrite N in R. discriminate R.
  - destruct S as [N [E|R]].
    + rewrite E in N. discriminate N.
    + rewrite C. split; [intros _; now split | reflexivity].
Qed.

(** The requests that reach [root] and [health]. *)
Lemma served_by_root_iff req :
  served_by root_route app req <->
  method req = "GET" /\ (path req = "/" \/ path req = "/" ++ newline).
Proof.
  unfold served_by. split.
  - intros [E M]. split.
    + unfold method_not_allowed, mem in M. simpl in M.
      rewrite orb_false_r in M. apply negb_false_iff in M. now apply String.eqb_eq.
    + assert (S := Router_app_spec app req). rewrite E in S. destruct S as [_ S].
      apply path_regex_match_spec.
      destruct (path_regex_match (route_path root_route) (path req)) eqn:P; [exact P|].
      exfalso. apply S. now apply matches_NONE.
  - destruct req as [m p q hd b]. simpl. intros [-> [-> | ->]]; split; reflexivity.
Qed.

Lemma served_by_health_iff req :
  served_by health_route app req <->
  method req = "GET" /\ (path req = "/health" \/ path req = "/health" ++ newline).
Proof.
  unfold served_by. split.
  - intros [E M]. split.
    + unfold method_not_allowed, mem in M. simpl in M.
      rewrite orb_false_r in M. apply negb_false_iff in M. now apply String.eqb_eq.
    + assert (S := Router_app_spec app req). rewrite E in S. destruct S as [_ S].
      apply path_regex_match_spec.
      destruct (path_regex_match (route_path health_route) (path req)) eqn:P; [exact P|].
      exfalso. apply S. now apply matches_NONE.
  - destruct req as [m p q hd b]. simpl. intros [-> [-> | ->]]; split; reflexivity.
Qed.

Lemma served_by_response r req :
  served_by r app req -> response req = route_response r (method req).
Proof.
  intros [E _]. assert (C := response_cases req). rewrite E in C. now destruct C.
Qed.

Lemma served_by_root_response req :
  served_by root_route app req -> response req = JSONResponse root_content 200 [].
Proof.
  intros S. rewrite (served_by_response _ _ S). destruct S as [_ N].
  unfold route_response, Route_handle. now rewrite N.
Qed.

Lemma served_by_health_response req :
  served_by health_route app req -> response req = JSONResponse health_content 200 [].
Proof.
  intros S. rewrite (served_by_response _ _ S). destruct S as [_ N].
  unfold route_response, Route_handle. now rewrite N.
Qed.

(** A method other than GET on the paths of main.py. *)
Lemma non_get_root req :
  method req <> "GET" -> path req = "/" ->
  response req = http_exception_handler 405 [("allow", "GET")].
Proof.
  intros Hm Hp. apply String.eqb_neq in Hm.
  assert (N : method_not_allowed root_route (method req) = true).
  { unfold method_not_allowed, mem. cbn. now rewrite Hm. }
  assert (C := response_cases req).
  assert (E : Router_app (routes app) req = Handle root_route).
  { unfold Router_app. rewrite Hp, app_routes. cbn [route_loop].
    unfold matches at 1 2 3 4. cbn [path_regex_match route_path Starlette_Route].
    change (matches root_route (method req) "/") with
      (if method_not_allowed root_route (method req) then PARTIAL else FULL).
    rewrite N. reflexivity. }
  rewrite E in C. destruct C as [_ ->].
  unfold route_response, Route_handle. now rewrite N.
Qed.

Lemma non_get_health req :
  method req <> "GET" -> path req = "/health" ->
  response req = http_exception_handler 405 [("allow", "GET")].
Proof.
  intros Hm Hp. apply String.eqb_neq in Hm.
  assert (N : method_not_allowed health_route (method req) = true).
  { unfold method_not_allowed, mem. cbn. now rewrite Hm. }
  assert (C := response_cases req).
  assert (E : Router_app (routes app) req = Handle health_route).
  { unfold Router_app. rewrite Hp, app_routes. cbn [route_loop].
    unfold matches at 1 2 3 4 5. cbn [path_regex_match route_path Starlette_Route].
    change (matches health_route (method req) "/health") with
      (if method_not_allowed health_route (method req) then PARTIAL else FULL).
    rewrite N. reflexivity. }
  rewrite E in C. destruct C as [_ ->].
  unfold route_response, Route_handle. now rewrite N.
Qed.

(** The middleware stack is there from the first request on. *)
Lemma serve_all_middleware a h hs :
  running a ->
  middleware_stack (st_app (snd (serve_all {| st_app := a; st_heap := h |} hs)))
  = match hs with
    | [] => middleware_stack a
    | _ :: _ => Some (match middleware_stack a with None => default_stack | Some s => s end)
    end.
Proof.
  revert a. induction hs as [|req hs IH]; intros a Ha; [reflexivity|].
  destruct (serve_cases a h req Ha) as (a1 & R1 & M1 & S1 & _).
  cbn [serve_all]. destruct (serve _ req) as [resp st1]. cbn [snd] in S1. subst st1.
  specialize (IH a1 R1).
  destruct (serve_all _ hs) as [resps st2]. cbn [snd] in IH |- *.
  rewrite IH, M1. now destruct hs.
Qed.

(** * The claims *)

(** C1. Every GET request to "/", after any history of requests, is
    answered with status 200, and the body read as JSON is the mapping
    with exactly the two keys "status" and "message", bound to "running"
    and "GKE app deployed securely using Terraform + OIDC". *)
Theorem root_get_200 (hs : list Request) (req : Request) :
  method req = "GET" ->
  path req = "/" ->
  status_code (serve_after hs req) = 200 /\
  exists b,
    resp_body (serve_after hs req) = Bytes b /\
    Json.loads b =
      Some (VDict [("status", VStr "running");
                   ("message", VStr "GKE app deployed securely using Terraform + OIDC")]).
Proof.
  intros Hm Hp. rewrite serve_after_response, response_ext, Hm, Hp.
  split; [reflexivity|]. eexists. split; reflexivity.
Qed.

Lemma root_get_200_witness :
  method root_probe = "GET" /\
  path root_probe = "/" /\
  status_code (serve_after [root_post; request "GET" "/docs"] root_probe) = 200 /\
  exists b,
    resp_body (serve_after [root_post; request "GET" "/docs"] root_probe) = Bytes b /\
    Json.loads b =
      Some (VDict [("status", VStr "running");
                   ("message", VStr "GKE app deployed securely using Terraform + OIDC")]).
Proof.
  split; [reflexivity|]. split; [reflexivity|].
  apply root_get_200; reflexivity.
Defined.

(** C2. Every GET request to "/health", after any history of requests, is
    answered with status 200, and the body read as JSON is the mapping
    with exactly the one key "health", bound to "ok". *)
Theorem health_get_200 (hs : list Request) (req : Request) :
  method req = "GET" ->
  path req = "/health" ->
  status_code (serve_after hs req) = 200 /\
  exists b,
    resp_body (serve_after hs req) = Bytes b /\
    Json.loads b = Some (VDict [("health", VStr "ok")]).
Proof.
  intros Hm Hp. rewrite serve_after_response, response_ext, Hm, Hp.
  split; [reflexivity|]. eexists. split; reflexivity.
Qed.

Lemma health_get_200_witness :
  method health_probe = "GET" /\
  path health_probe = "/health" /\
  status_code (serve_after [root_probe] health_probe) = 200 /\
  exists b,
    resp_body (serve_after [root_probe] health_probe) = Bytes b /\
    Json.loads b = Some (VDict [("health", VStr "ok")]).
Proof.
  split; [reflexivity|]. split; [reflexivity|].
  apply health_get_200; reflexivity.
Defined.

(** C3, as amended. A GET request whose path is spelled like none of the
    registered paths -- "/" and "/health" of main.py and "/openapi.json",
    "/docs", "/docs/oauth2-redirect", "/redoc" of [FastAPI()] -- and is not
    turned into one by adding a trailing slash (when it has none) or by
    stripping all its trailing slashes (when it has some), is handed to no
    route and answered with status 404. *)
Theorem unregistered_get_404 (hs : list Request) (req : Request) :
  method req = "GET" ->
  names_route app (path req) = false ->
  names_route app (redirect_path (path req)) = false ->
  Router_app (routes app) req = NotFound /\
  status_code (serve_after hs req) = 404.
Proof.
  intros _ Hp Hr.
  assert (E : Router_app (routes app) req = NotFound).
  { unfold Router_app.
    apply names_route_false in Hp, Hr. unfold registered_paths in Hp, Hr.
    apply (matches_any_false (method req)) in Hp, Hr.
    apply route_loop_None in Hp. rewrite Hp, Hr.
    now rewrite andb_false_r. }
  split; [exact E|].
  rewrite serve_after_response. apply not_found_iff. now split.
Qed.

Lemma unregistered_get_404_witness :
  method (request "GET" "/nonexistent") = "GET" /\
  names_route app (path (request "GET" "/nonexistent")) = false /\
  names_route app (redirect_path (path (request "GET" "/nonexistent"))) = false /\
  Router_app (routes app) (request "GET" "/nonexistent") = NotFound /\
  status_code (serve_after [root_probe] (request "GET" "/nonexistent")) = 404.
Proof.
  split; [reflexivity|]. split; [reflexivity|]. split; [reflexivity|].
  apply unregistered_get_404; reflexivity.
Defined.

(** C3 as stated fails: "/docs" is neither "/" nor "/health", and the GET
    request to it is handed to a route and answered with status 200. *)
Lemma other_path_not_always_404 :
  ~ (forall req : Request,
        method req = "GET" -> path req <> "/" -> path req <> "/health" ->
        Router_app (routes app) req = NotFound /\ status_code (response req) = 404).
Proof.
  intros H.
  destruct (H (request "GET" "/docs")) as [E _]; try discriminate; reflexivity.
Qed.

(** C4. Every POST request to "/", a path registered for GET only, is
    answered with status 405. *)
Theorem root_post_405 (hs : list Request) (req : Request) :
  method req = "POST" ->
  path req = "/" ->
  status_code (serve_after hs req) = 405.
Proof.
  intros Hm Hp. now rewrite serve_after_response, response_ext, Hm, Hp.
Qed.

Lemma root_post_405_witness :
  method root_post = "POST" /\
  path root_post = "/" /\
  status_code (serve_after [root_probe] root_post) = 405.
Proof.
  split; [reflexivity|]. split; [reflexivity|].
  apply root_post_405; reflexivity.
Defined.



(** C6, as amended. Handling a request leaves the registered routes and
    every live object as they were: [root] and [health] touch nothing but
    the object they build, which is gone when the response is made.  The
    only state that serving writes is in the two attributes the framework
    fills on first use: [app.middleware_stack], set by the first request,
    and [app.openapi_schema], which once set is the schema of main.py's
    routes.  The response to a request after any history is the response to
    it on the freshly imported program. *)
Theorem serving_keeps_state (h : gmap loc value) (hs : list Request) (req : Request) :
  (exists l v, root h = Returns (l, <[l := v]> h) /\ h !! l = None) /\
  (exists l v, health h = Returns (l, <[l := v]> h) /\ h !! l = None) /\
  routes (st_app (snd (serve {| st_app := app; st_heap := h |} req))) = routes app /\
  st_heap (snd (serve {| st_app := app; st_heap := h |} req)) = h /\
  routes (st_app (state_after hs)) = routes app /\
  st_heap (state_after hs) = st_heap initial /\
  middleware_stack (st_app (state_after hs))
    = match hs with [] => None | _ :: _ => Some default_stack end /\
  (openapi_schema (st_app (state_after hs)) = None \/
   openapi_schema (st_app (state_after hs)) = Some (get_openapi (routes app))) /\
  serve_after hs req = fst (serve initial req).
Proof.
  split; [|split].
  - destruct (new_object_spec root_content h) as (l & E & F). now exists l, root_content.
  - destruct (new_object_spec health_content h) as (l & E & F). now exists l, health_content.
  - destruct (serve_cases app h req running_app) as (a' & Ra & _ & -> & _).
    destruct (state_after_running hs) as [[R C] H].
    repeat split; try assumption.
    + apply Ra.
    + unfold state_after, initial. now rewrite (serve_all_middleware app ∅ hs running_app).
    + apply serve_after_response.
Qed.

(** C6 as stated fails: the first request changes the program state, for
    it makes the application build and keep its middleware stack. *)
Lemma first_request_changes_state :
  ~ (forall req : Request, snd (serve initial req) = initial).
Proof.
  intros H. specialize (H (request "GET" "/")).
  apply (f_equal (fun st => middleware_stack (st_app st))) in H.
  discriminate H.
Qed.

(** C7. Every request that reaches the handler of "/" or of "/health" gets
    a response with the header content-type: application/json and a body
    that reads as a JSON document. *)
Theorem handler_responses_are_json (hs : list Request) (req : Request) :
  served_by root_route app req \/ served_by health_route app req ->
  header "content-type" (raw_headers (serve_after hs req)) = Some "application/json" /\
  exists b v, resp_body (serve_after hs req) = Bytes b /\ Json.loads b = Some v.
Proof.
  rewrite serve_after_response.
  intros [S|S];
    [rewrite (served_by_root_response _ S) | rewrite (served_by_health_response _ S)];
    (split; [reflexivity|]); do 2 eexists; split; reflexivity.
Qed.

Lemma handler_responses_are_json_witness :
  served_by health_route app health_probe /\
  header "content-type" (raw_headers (serve_after [root_post] health_probe))
    = Some "application/json" /\
  exists b v, resp_body (serve_after [root_post] health_probe) = Bytes b /\
              Json.loads b = Some v.
Proof.
  split; [split; reflexivity|].
  apply handler_responses_are_json. right. split; reflexivity.
Defined.

(** C8. On a registered path the response does not depend on the query
    string, the headers or the body of the request: two requests with the
    same method and the same registered path -- in particular two GET
    requests to "/" or to "/health" -- get the same status and the same
    body, after any history. *)
Theorem response_ignores_request_input
    (hs : list Request) (m p : string)
    (q1 q2 : string) (hd1 hd2 : list (string * string)) (b1 b2 : string) :
  names_route app p = true ->
  status_code (serve_after hs (mkRequest m p q1 hd1 b1))
    = status_code (serve_after hs (mkRequest m p q2 hd2 b2)) /\
  resp_body (serve_after hs (mkRequest m p q1 hd1 b1))
    = resp_body (serve_after hs (mkRequest m p q2 hd2 b2)).
Proof.
  intros Hn. rewrite !serve_after_response.
  assert (S := Router_app_spec app (mkRequest m p q1 hd1 b1)).
  assert (C1 := response_cases (mkRequest m p q1 hd1 b1)).
  assert (C2 := response_cases (mkRequest m p q2 hd2 b2)).
  change (Router_app (routes app) (mkRequest m p q2 hd2 b2))
    with (Router_app (routes app) (mkRequest m p q1 hd1 b1)) in C2.
  cbn [method path] in S, C1, C2.
  destruct (Router_app (routes app) (mkRequest m p q1 hd1 b1)) as [r|t|].
  - destruct C1 as [_ ->], C2 as [_ ->]. split; reflexivity.
  - destruct S as (_ & _ & N & _). congruence.
  - destruct S as [N _]. congruence.
Qed.

Lemma response_ignores_request_input_witness :
  names_route app "/health" = true /\
  status_code (serve_after [root_post] (mkRequest "GET" "/health" bad_query [] EmptyString))
    = status_code (serve_after [root_post] health_probe) /\
  resp_body (serve_after [root_post] (mkRequest "GET" "/health" bad_query [] EmptyString))
    = resp_body (serve_after [root_post] health_probe).
Proof.
  split; [reflexivity|].
  apply (response_ignores_request_input [root_post] "GET" "/health"). reflexivity.
Defined.

(** C9. [root] and [health] are total constant functions: called with no
    argument in any store, each returns, raising nothing, a dict with its
    literal's items that is a new object of that store, and leaves every
    other object as it was. *)
Theorem handlers_total_constant (h : gmap loc value) :
  (exists l, root h = Returns (l, <[l := VDict [("status", VStr "running");
                                               ("message", VStr "GKE app deployed securely using Terraform + OIDC")]]> h)
             /\ h !! l = None) /\
  (exists l, health h = Returns (l, <[l := VDict [("health", VStr "ok")]]> h)
             /\ h !! l = None).
Proof. split; apply new_object_spec. Qed.

(** C10, as amended. A route registered with [@app.get] serves GET only:
    a request to "/" or "/health" with another method, HEAD included, is
    answered with status 405 and the header allow: GET. *)
Theorem get_route_rejects_other_methods (hs : list Request) (req : Request) :
  method req <> "GET" ->
  path req = "/" \/ path req = "/health" ->
  status_code (serve_after hs req) = 405 /\
  header "allow" (raw_headers (serve_after hs req)) = Some "GET".
Proof.
  intros Hm Hp. rewrite serve_after_response.
  destruct Hp as [Hp|Hp];
    [rewrite (non_get_root _ Hm Hp) | rewrite (non_get_health _ Hm Hp)];
    split; reflexivity.
Qed.

Lemma get_route_rejects_other_methods_witness :
  method (request "HEAD" "/") <> "GET" /\
  path (request "HEAD" "/") = "/" /\
  status_code (serve_after [root_probe] (request "HEAD" "/")) = 405 /\
  header "allow" (raw_headers (serve_after [root_probe] (request "HEAD" "/"))) = Some "GET".
Proof.
  split; [discriminate|]. split; [reflexivity|].
  apply get_route_rejects_other_methods; [discriminate | left; reflexivity].
Defined.

(** C10 as stated fails: the HEAD request to "/" is not answered with
    status 200. *)
Lemma head_root_not_200 :
  ~ (forall req : Request,
        method req = "HEAD" -> path req = "/" \/ path req = "/health" ->
        status_code (response req) = 200).
Proof.
  intros H. specialize (H (request "HEAD" "/") eq_refl (or_introl eq_refl)).
  discriminate H.
Qed.

(** * Further properties *)

(** ** Full and partial matches in the router's loop *)

Section Loop.

Variables (m p : string).

Lemma matches_FULL r :
  matches r m p = FULL <->
  path_regex_match (route_path r) p = true /\ method_not_allowed r m = false.
Proof.
  unfold matches. destruct (path_regex_match _ _), (method_not_allowed r m);
    split; try discriminate; try (intros [? ?]; discriminate); auto.
Qed.

Lemma matches_PARTIAL r :
  matches r m p = PARTIAL <->
  path_regex_match (route_path r) p = true /\ method_not_allowed r m = true.
Proof.
  unfold matches. destruct (path_regex_match _ _), (method_not_allowed r m);
    split; try discriminate; try (intros [? ?]; discriminate); auto.
Qed.

(** When some route matches fully, the loop picks a full match. *)
Lemma route_loop_full rs partial :
  (exists r, In r rs /\ matches r m p = FULL) ->
  exists r, route_loop rs m p partial = Some r /\ In r rs /\ matches r m p = FULL.
Proof.
  revert partial. induction rs as [|r0 rs IH]; intros partial (r & Hin & Hr).
  - destruct Hin.
  - simpl. destruct (matches r0 m p) eqn:E.
    + destruct Hin as [<-|Hin]; [congruence|].
      destruct (IH partial) as (r' & L & Hin' & F); [eauto|]. exists r'. simpl; auto.
    + destruct Hin as [<-|Hin]; [congruence|].
      destruct (IH (match partial with None => Some r0 | Some _ => partial end))
        as (r' & L & Hin' & F); [eauto|]. exists r'. simpl; auto.
    + exists r0. simpl; auto.
Qed.

(** When no route matches fully, the loop picks a partial match. *)
Lemma route_loop_partial rs r :
  (forall r0, In r0 rs -> matches r0 m p <> FULL) ->
  route_loop rs m p None = Some r ->
  matches r m p = PARTIAL.
Proof.
  intros Hno L. destruct (route_loop_matches m p rs r L) as [Hin Hm].
  specialize (Hno r Hin). destruct (matches r m p); congruence.
Qed.

(** A route that matches nothing can be appended without effect. *)
Lemma route_loop_app_NONE rs rs' partial :
  (forall r, In r rs' -> matches r m p = NONE) ->
  route_loop (rs ++ rs') m p partial = route_loop rs m p partial.
Proof.
  intros Hn. revert partial. induction rs as [|r0 rs IH]; intros partial; simpl.
  - induction rs' as [|r1 rs' IH']; simpl; [reflexivity|].
    rewrite (Hn r1) by (simpl; auto). apply IH'. intros r Hr. apply Hn. simpl; auto.
  - destruct (matches r0 m p); [apply IH | apply IH | reflexivity].
Qed.

(** A full match that the loop picks is still picked when routes are
    appended. *)
Lemma route_loop_app_FULL rs rs' r :
  route_loop rs m p None = Some r ->
  matches r m p = FULL ->
  route_loop (rs ++ rs') m p None = Some r.
Proof.
  assert (G : forall partial,
             match partial with Some r0 => matches r0 m p <> FULL | None => True end ->
             route_loop rs m p partial = Some r -> matches r m p = FULL ->
             route_loop (rs ++ rs') m p partial = Some r).
  { induction rs as [|r0 rs IH]; simpl; intros partial Hp L F.
    - subst partial. contradiction.
    - destruct (matches r0 m p) eqn:E.
      + now apply IH.
      + apply IH; [|exact L|exact F]. destruct partial; [exact Hp | congruence].
      + exact L. }
  intros L F. now apply G.
Qed.

Lemma matches_any_app rs rs' :
  matches_any (rs ++ rs') m p = matches_any rs m p || matches_any rs' m p.
Proof. unfold matches_any. apply existsb_app. Qed.

End Loop.

Lemma names_route_In a r p :
  In r (routes a) -> path_regex_match (route_path r) p = true -> names_route a p = true.
Proof.
  intros Hin Hp. unfold names_route. apply existsb_exists.
  exists (route_path r). split; [|exact Hp]. unfold registered_paths. now apply in_map.
Qed.

Lemma names_route_init_app p : names_route FastAPI_init p = true -> names_route app p = true.
Proof.
  unfold names_route. rewrite !existsb_exists. intros (q & Hin & Hq).
  exists q. split; [|exact Hq]. cbn in Hin |- *. tauto.
Qed.

(** Some route accepts both the path and the method exactly when the path
    is registered and the method is one the application serves there. *)
Lemma full_match_iff m p :
  (exists r, In r (routes app) /\ matches r m p = FULL) <->
  names_route app p = true /\ method_served m p = true.
Proof.
  unfold method_served. split.
  - intros (r & Hin & F). apply matches_FULL in F as [Hp Hm].
    split; [now apply (names_route_In app r)|].
    rewrite app_routes in Hin. simpl in Hin.
    destruct Hin as [<-|[<-|[<-|[<-|[<-|[<-|[]]]]]]];
      unfold method_not_allowed, mem in Hm; cbn in Hm;
      rewrite ?orb_false_r in Hm; apply negb_false_iff in Hm;
      try (rewrite Hm; reflexivity);
      (apply orb_true_iff in Hm as [Hm|Hm]; rewrite Hm; [reflexivity|];
       rewrite orb_true_iff; right; cbn [andb];
       unfold names_route; cbn; cbn in Hp; rewrite Hp; now rewrite ?orb_true_r).
  - intros [Hn Hs]. apply orb_true_iff in Hs as [Hg|Hh].
    + apply existsb_exists in Hn as (q & Hin & Hq).
      unfold registered_paths in Hin. apply in_map_iff in Hin as (r & <- & Hin).
      exists r. split; [exact Hin|]. apply matches_FULL. split; [exact Hq|].
      rewrite app_routes in Hin. simpl in Hin.
      destruct Hin as [<-|[<-|[<-|[<-|[<-|[<-|[]]]]]]];
        unfold method_not_allowed, mem; cbn; now rewrite Hg.
    + apply andb_true_iff in Hh as [Hh Hd].
      apply existsb_exists in Hd as (q & Hin & Hq).
      unfold registered_paths in Hin. apply in_map_iff in Hin as (r & <- & Hin).
      exists r. split.
      * rewrite app_routes. cbn in Hin |- *. tauto.
      * apply matches_FULL. split; [exact Hq|].
        cbn in Hin. destruct Hin as [<-|[<-|[<-|[<-|[]]]]];
          unfold method_not_allowed, mem; cbn; rewrite Hh; now rewrite ?orb_true_r.
Qed.

(** The status of the response to any request, in closed form. *)
Lemma status_spec req :
  status_code (response req) =
    if names_route app (path req)
    then (if method_served (method req) (path req) then 200 else 405)
    else if names_route app (redirect_path (path req))
         then (if utf8_valid (query_string req) then 307 else 500)
         else 404.
Proof.
  assert (S := Router_app_spec app req). assert (C := response_cases req).
  destruct (Router_app (routes app) req) as [r|t|] eqn:E.
  - destruct S as [Hin Hm]. destruct C as [_ ->]. rewrite (route_status r _ Hin).
    assert (Hp : path_regex_match (route_path r) (path req) = true).
    { destruct (path_regex_match _ _) eqn:P; [reflexivity|].
      exfalso. apply Hm. now apply matches_NONE. }
    rewrite (names_route_In app r _ Hin Hp).
    destruct (method_served (method req) (path req)) eqn:M.
    + assert (F : exists r', In r' (routes app) /\ matches r' (method req) (path req) = FULL).
      { apply full_match_iff. split; [now apply (names_route_In app r) | exact M]. }
      apply (route_loop_full _ _ _ None) in F as (r' & L & _ & F).
      unfold Router_app in E. rewrite L in E. injection E as ->.
      apply matches_FULL in F as [_ ->]. reflexivity.
    + destruct (method_not_allowed r (method req)) eqn:N; [reflexivity|].
      assert (F : names_route app (path req) = true /\ method_served (method req) (path req) = true).
      { apply full_match_iff. exists r. split; [exact Hin|]. now apply matches_FULL. }
      destruct F as [_ F]. congruence.
  - destruct S as (-> & _ & -> & ->). rewrite C. unfold redirect.
    now destruct (utf8_valid (query_string req)).
  - rewrite C. destruct S as [N [P|R]].
    + rewrite P in N. discriminate N.
    + now rewrite N, R.
Qed.

(** X1. The status of a response is 200, 307, 404, 405 or 500, and it is
    500 in one case only: the path is spelled like no registered path but
    becomes one with the trailing slash toggled, and the query string is
    not valid UTF-8, so that the redirect URL cannot be built.  A request
    to a registered path is never answered with a server error. *)
Theorem status_500_iff (hs : list Request) (req : Request) :
  (status_code (serve_after hs req) = 200 \/ status_code (serve_after hs req) = 307 \/
   status_code (serve_after hs req) = 404 \/ status_code (serve_after hs req) = 405 \/
   status_code (serve_after hs req) = 500) /\
  (status_code (serve_after hs req) = 500 <->
   names_route app (path req) = false /\
   names_route app (redirect_path (path req)) = true /\
   utf8_valid (query_string req) = false).
Proof.
  rewrite serve_after_response, status_spec.
  destruct (names_route app (path req)).
  - destruct (method_served _ _); (split; [tauto|]);
      (split; [discriminate | intros (? & _); discriminate]).
  - destruct (names_route app (redirect_path (path req))).
    + destruct (utf8_valid (query_string req)); (split; [tauto|]).
      * split; [discriminate | intros (_ & _ & ?); discriminate].
      * split; auto.
    + split; [tauto|]. split; [discriminate | intros (_ & ? & _); discriminate].
Qed.

(** X2. A request is answered with 200 exactly when its path is spelled
    like a registered path and its method is GET, or HEAD on one of the
    paths [FastAPI()] registered itself. *)
Theorem status_200_iff (hs : list Request) (req : Request) :
  status_code (serve_after hs req) = 200 <->
  names_route app (path req) = true /\
  (method req = "GET" \/
   (method req = "HEAD" /\ names_route FastAPI_init (path req) = true)).
Proof.
  rewrite serve_after_response, status_spec. unfold method_served.
  destruct (names_route app (path req)).
  - destruct (String.eqb_spec (method req) "GET") as [G|G]; cbn [orb].
    + split; auto.
    + destruct (String.eqb_spec (method req) "HEAD") as [H|H]; cbn [andb].
      * destruct (names_route FastAPI_init (path req)).
        -- split; auto.
        -- split; [discriminate|]. intros [_ [?|[_ ?]]]; [contradiction|discriminate].
      * split; [discriminate|]. intros [_ [?|[? _]]]; contradiction.
  - destruct (names_route app (redirect_path (path req)));
      [destruct (utf8_valid (query_string req))|];
      (split; [discriminate | intros [? _]; discriminate]).
Qed.

(** X3. A request is answered with 405 exactly when its path is spelled
    like a registered path and its method is one the path does not serve:
    neither GET, nor HEAD on a path [FastAPI()] registered itself. *)
Theorem status_405_iff (hs : list Request) (req : Request) :
  status_code (serve_after hs req) = 405 <->
  names_route app (path req) = true /\
  method req <> "GET" /\
  ~ (method req = "HEAD" /\ names_route FastAPI_init (path req) = true).
Proof.
  rewrite serve_after_response, status_spec. unfold method_served.
  destruct (names_route app (path req)).
  - destruct (String.eqb_spec (method req) "GET") as [G|G]; cbn [orb].
    + split; [discriminate | intros (_ & ? & _); contradiction].
    + destruct (String.eqb_spec (method req) "HEAD") as [H|H]; cbn [andb].
      * destruct (names_route FastAPI_init (path req)).
        -- split; [discriminate | intros (_ & _ & N); exfalso; apply N; auto].
        -- split; [|reflexivity]. intros _. repeat split; auto. intros [_ ?]; discriminate.
      * split; [|reflexivity]. intros _. repeat split; auto. intros [? _]; contradiction.
  - destruct (names_route app (redirect_path (path req)));
      [destruct (utf8_valid (query_string req))|];
      (split; [discriminate | intros [? _]; discriminate]).
Qed.

(** X4. A request is answered with the redirect 307 exactly when its path
    is spelled like no registered path but becomes one when a trailing
    slash is added or all its trailing slashes are stripped, and its query
    string is valid UTF-8; the method plays no part. *)
Theorem status_307_iff (hs : list Request) (req : Request) :
  status_code (serve_after hs req) = 307 <->
  names_route app (path req) = false /\
  names_route app (redirect_path (path req)) = true /\
  utf8_valid (query_string req) = true.
Proof.
  rewrite serve_after_response, status_spec.
  destruct (names_route app (path req)).
  - destruct (method_served _ _); (split; [discriminate | intros [? _]; discriminate]).
  - destruct (names_route app (redirect_path (path req))).
    + destruct (utf8_valid (query_string req)).
      * split; auto.
      * split; [discriminate | intros (_ & _ & ?); discriminate].
    + split; [discriminate | intros (_ & ? & _); discriminate].
Qed.

(** X5. A request of any method is answered with 404 exactly when its
    path is spelled like no registered path, neither as it is nor with the
    trailing slash toggled. *)
Theorem status_404_iff (hs : list Request) (req : Request) :
  status_code (serve_after hs req) = 404 <->
  names_route app (path req) = false /\
  names_route app (redirect_path (path req)) = false.
Proof. rewrite serve_after_response. apply not_found_iff. Qed.

(** ** The bodies *)

(** The response to every request, by what the router did. *)
Lemma body_cases req :
  (served_by root_route app req /\ response req = JSONResponse root_content 200 []) \/
  (served_by health_route app req /\ response req = JSONResponse health_content 200 []) \/
  (exists pg, response req = HTMLResponse pg) \/
  response req = schema_response (get_openapi (routes app)) \/
  (exists ms, response req = http_exception_handler 405 (allow_header ms)) \/
  response req = RedirectResponse \/
  response req = server_error \/
  response req = http_exception_handler 404 [].
Proof.
  assert (C := response_cases req). unfold served_by.
  destruct (Router_app (routes app) req) as [r| |] eqn:E.
  - destruct C as [Hin ->]. unfold route_response, Route_handle.
    destruct (method_not_allowed r (method req)) eqn:N.
    + do 4 right. left. eexists. reflexivity.
    + rewrite app_routes in Hin. simpl in Hin.
      destruct Hin as [<-|[<-|[<-|[<-|[<-|[<-|[]]]]]]].
      * do 3 right. left. reflexivity.
      * right. right. left. now exists swagger_ui_html.
      * right. right. left. now exists swagger_ui_redirect.
      * right. right. left. now exists redoc_html.
      * left. repeat split; assumption.
      * right. left. repeat split; assumption.
  - rewrite C. unfold redirect. destruct (utf8_valid _); tauto.
  - tauto.
Qed.

(** X6. The response body reads as the dict of [root] exactly for the GET
    requests whose path is "/" (or "/" and a line feed): no other request
    gets this document. *)
Theorem root_document_iff (hs : list Request) (req : Request) :
  (exists b, resp_body (serve_after hs req) = Bytes b /\ Json.loads b = Some root_content) <->
  method req = "GET" /\ (path req = "/" \/ path req = "/" ++ newline).
Proof.
  rewrite serve_after_response, <- served_by_root_iff. split.
  - intros (b & Hb & L).
    destruct (body_cases req) as [[S _]|[[_ R]|[[pg R]|[R|[[a R]|[R|[R|R]]]]]]];
      [exact S|rewrite R in Hb..];
      try discriminate Hb;
      injection Hb as <-; vm_compute in L; discriminate L.
  - intros S. rewrite (served_by_root_response _ S). eexists. split; reflexivity.
Qed.

(** X7. The response body reads as the dict of [health] exactly for the
    GET requests whose path is "/health" (or "/health" and a line feed). *)
Theorem health_document_iff (hs : list Request) (req : Request) :
  (exists b, resp_body (serve_after hs req) = Bytes b /\ Json.loads b = Some health_content) <->
  method req = "GET" /\ (path req = "/health" \/ path req = "/health" ++ newline).
Proof.
  rewrite serve_after_response, <- served_by_health_iff. split.
  - intros (b & Hb & L).
    destruct (body_cases req) as [[_ R]|[[S _]|[[pg R]|[R|[[a R]|[R|[R|R]]]]]]];
      [rewrite R in Hb|exact S|rewrite R in Hb..];
      try discriminate Hb;
      injection Hb as <-; vm_compute in L; discriminate L.
  - intros S. rewrite (served_by_health_response _ S). eexists. split; reflexivity.
Qed.

(** X8. The body of every 404 and of every 405 is JSON, sent with
    content-type application/json: the object with the one key "detail",
    bound to "Not Found" and to "Method Not Allowed". *)
Theorem error_bodies_are_json
    (hs : list Request) (req : Request) (code : Z) (text : string) :
  In (code, text) [(404, "Not Found"); (405, "Method Not Allowed")] ->
  status_code (serve_after hs req) = code ->
  header "content-type" (raw_headers (serve_after hs req)) = Some "application/json" /\
  exists b, resp_body (serve_after hs req) = Bytes b /\
            Json.loads b = Some (VDict [("detail", VStr text)]).
Proof.
  rewrite serve_after_response. intros Hc Hs.
  destruct (body_cases req) as [[_ R]|[[_ R]|[[pg R]|[R|[[a R]|[R|[R|R]]]]]]];
    rewrite R in Hs |- *; cbn in Hs; subst code;
    destruct Hc as [Hc|[Hc|[]]]; try discriminate Hc; injection Hc as <-.
  - split; [destruct a as [|m [|m' a]]; reflexivity|]. eexists. split; reflexivity.
  - split; [reflexivity|]. eexists. split; reflexivity.
Qed.

Lemma error_bodies_are_json_witness :
  In (405, "Method Not Allowed") [(404, "Not Found"); (405, "Method Not Allowed")] /\
  status_code (serve_after [root_probe] (request "DELETE" "/health")) = 405 /\
  header "content-type" (raw_headers (serve_after [root_probe] (request "DELETE" "/health")))
    = Some "application/json" /\
  exists b, resp_body (serve_after [root_probe] (request "DELETE" "/health")) = Bytes b /\
            Json.loads b = Some (VDict [("detail", VStr "Method Not Allowed")]).
Proof.
  split; [right; left; reflexivity|]. split; [reflexivity|].
  apply (error_bodies_are_json _ _ 405 "Method Not Allowed");
    [right; left; reflexivity | reflexivity].
Defined.
(** ** Objects across calls *)

(** X9. Two calls of the handlers, one after the other with the first
    result still alive, return two different objects: each holds the items
    of its own literal, and every object that was there before the calls is
    still there unchanged.  No dict is shared between two calls. *)
Theorem successive_calls_build_distinct_objects
    (f g : pyfun) (v w : value) (h h1 h2 : gmap loc value) (l1 l2 : loc) :
  In (f, v) handlers ->
  In (g, w) handlers ->
  f h = Returns (l1, h1) ->
  g h1 = Returns (l2, h2) ->
  l1 <> l2 /\
  h2 !! l1 = Some v /\
  h2 !! l2 = Some w /\
  forall l x, h !! l = Some x -> h2 !! l = Some x.
Proof.
  intros Hf Hg Ef Eg.
  assert (F : f = new_object v).
  { destruct Hf as [Hf|[Hf|[]]]; injection Hf as <- <-; reflexivity. }
  assert (G : g = new_object w).
  { destruct Hg as [Hg|[Hg|[]]]; injection Hg as <- <-; reflexivity. }
  subst f g.
  destruct (new_object_spec v h) as (l1' & E1 & N1). rewrite E1 in Ef.
  injection Ef as <- <-.
  destruct (new_object_spec w (<[l1' := v]> h)) as (l2' & E2 & N2). rewrite E2 in Eg.
  injection Eg as <- <-.
  assert (D : l1' <> l2').
  { intros <-. rewrite lookup_insert_eq in N2. discriminate N2. }
  split; [exact D|]. split; [|split].
  - rewrite lookup_insert_ne by congruence. apply lookup_insert_eq.
  - apply lookup_insert_eq.
  - intros l x Hl.
    assert (l <> l1') by (intros ->; congruence).
    assert (l <> l2').
    { intros ->. rewrite lookup_insert_ne in N2 by congruence. congruence. }
    rewrite !lookup_insert_ne by congruence. exact Hl.
Qed.

Lemma successive_calls_build_distinct_objects_witness :
  In (root, root_content) handlers /\
  In (health, health_content) handlers /\
  (1%positive <> 2%positive /\
   (<[2%positive := health_content]> (<[1%positive := root_content]> (∅ : gmap loc value)))
     !! 1%positive = Some root_content /\
   (<[2%positive := health_content]> (<[1%positive := root_content]> (∅ : gmap loc value)))
     !! 2%positive = Some health_content /\
   forall l x, (∅ : gmap loc value) !! l = Some x ->
     (<[2%positive := health_content]> (<[1%positive := root_content]> (∅ : gmap loc value)))
       !! l = Some x).
Proof.
  split; [left; reflexivity|]. split; [right; left; reflexivity|].
  apply (successive_calls_build_distinct_objects root health root_content health_content
           ∅ (<[1%positive := root_content]> ∅)).
  - left; reflexivity.
  - right; left; reflexivity.
  - reflexivity.
  - reflexivity.
Defined.

(** ** How registrations compose *)

Lemma Router_app_Handle rs req r :
  Router_app rs req = Handle r -> route_loop rs (method req) (path req) None = Some r.
Proof.
  unfold Router_app. destruct (route_loop _ _ _ _) as [r'|].
  - congruence.
  - destruct (_ && _); discriminate.
Qed.

(** Two applications that hand a request to the same route, or to none,
    answer it alike, unless the route is the one of the schema, which
    lists the routes. *)
Lemma serve_same_dispatch a a' h req :
  Router_app (routes a') req = Router_app (routes a) req ->
  reaches_openapi a req = false ->
  fst (serve {| st_app := a'; st_heap := h |} req) = fst (serve {| st_app := a; st_heap := h |} req).
Proof.
  intros E O. unfold serve. cbn [st_app st_heap].
  change (routes (ensure_middleware_stack a')) with (routes a').
  change (routes (ensure_middleware_stack a)) with (routes a).
  rewrite E. unfold reaches_openapi in O.
  destruct (Router_app (routes a) req) as [r| |]; try reflexivity.
  unfold Route_handle. destruct (method_not_allowed r (method req)); [reflexivity|].
  destruct (endpoint r) as [f| |pg]; [|discriminate O|reflexivity].
  unfold run_endpoint. cbn [st_heap st_app].
  now destruct (run_path_operation f h).
Qed.

(** Two neighbouring routes that never match the same path can change
    places. *)
Lemma route_loop_swap m p pre r1 r2 partial :
  matches r1 m p = NONE \/ matches r2 m p = NONE ->
  route_loop (pre ++ [r1; r2]) m p partial = route_loop (pre ++ [r2; r1]) m p partial.
Proof.
  intros H. revert partial. induction pre as [|r0 pre IH]; intros partial; simpl.
  - destruct H as [H|H]; rewrite H; destruct (matches r1 m p), (matches r2 m p);
      try discriminate; reflexivity.
  - destruct (matches r0 m p); [apply IH | apply IH | reflexivity].
Qed.

Lemma matches_any_swap m p pre r1 r2 :
  matches_any (pre ++ [r1; r2]) m p = matches_any (pre ++ [r2; r1]) m p.
Proof.
  rewrite !matches_any_app. f_equal. unfold matches_any. simpl.
  rewrite !orb_false_r. apply orb_comm.
Qed.

(** X10. In an application whose paths have no parameters, registering one
    more GET route under such a path changes nothing for the requests
    whose path, as it is and with the trailing slash toggled, is not
    spelled like the new path -- except for the schema at the [openapi]
    route, which lists the routes: every other such request gets the
    response it got before. *)
Theorem registration_leaves_other_paths (a : FastAPI) (p : string) (f : pyfun)
    (h : gmap loc value) (req : Request) :
  forallb plain_path (registered_paths a) = true ->
  plain_path p = true ->
  path_regex_match p (path req) = false ->
  path_regex_match p (redirect_path (path req)) = false ->
  reaches_openapi a req = false ->
  fst (serve {| st_app := FastAPI_get p f a; st_heap := h |} req)
  = fst (serve {| st_app := a; st_heap := h |} req).
Proof.
  intros _ _ Hp Hr Ho. apply serve_same_dispatch; [|exact Ho].
  unfold Router_app, FastAPI_get, add_api_route. cbn [routes].
  rewrite route_loop_app_NONE, matches_any_app.
  - unfold matches_any at 2. simpl.
    assert (N : matches (APIRoute p f ["GET"]) (method req) (redirect_path (path req)) = NONE)
      by now apply matches_NONE.
    rewrite N. now rewrite !orb_false_r.
  - intros r [<-|[]]. now apply matches_NONE.
Qed.

Lemma registration_leaves_other_paths_witness :
  forallb plain_path (registered_paths (FastAPI_get "/" root FastAPI_init)) = true /\
  plain_path "/health" = true /\
  path_regex_match "/health" (path root_probe) = false /\
  path_regex_match "/health" (redirect_path (path root_probe)) = false /\
  reaches_openapi (FastAPI_get "/" root FastAPI_init) root_probe = false /\
  fst (serve {| st_app := FastAPI_get "/health" health (FastAPI_get "/" root FastAPI_init);
                st_heap := ∅ |} root_probe)
  = fst (serve {| st_app := FastAPI_get "/" root FastAPI_init; st_heap := ∅ |} root_probe).
Proof.
  do 5 (split; [reflexivity|]).
  apply registration_leaves_other_paths; reflexivity.
Defined.

(** X11. In an application whose paths have no parameters, a request that
    a route already serves -- path and method both accepted -- is still
    handed to that route after any further [@app.get], even one for the
    same path: the earlier registration wins.  Unless the route is the
    one of the schema, the response is the same as before. *)
Theorem earlier_route_keeps_its_requests (a : FastAPI) (p : string) (f : pyfun)
    (h : gmap loc value) (req : Request) (r : Route) :
  forallb plain_path (registered_paths a) = true ->
  plain_path p = true ->
  Router_app (routes a) req = Handle r ->
  matches r (method req) (path req) = FULL ->
  Router_app (routes (FastAPI_get p f a)) req = Handle r /\
  (reaches_openapi a req = false ->
   fst (serve {| st_app := FastAPI_get p f a; st_heap := h |} req)
   = fst (serve {| st_app := a; st_heap := h |} req)).
Proof.
  intros _ _ E F.
  assert (E' : Router_app (routes (FastAPI_get p f a)) req = Handle r).
  { unfold Router_app, FastAPI_get, add_api_route. cbn [routes].
    now rewrite (route_loop_app_FULL _ _ _ _ r (Router_app_Handle _ _ _ E) F). }
  split; [exact E'|]. intros Ho. apply serve_same_dispatch; [|exact Ho]. now rewrite E, E'.
Qed.

Lemma earlier_route_keeps_its_requests_witness :
  forallb plain_path (registered_paths (FastAPI_get "/" root FastAPI_init)) = true /\
  plain_path "/" = true /\
  Router_app (routes (FastAPI_get "/" root FastAPI_init)) root_probe = Handle root_route /\
  matches root_route (method root_probe) (path root_probe) = FULL /\
  Router_app (routes (FastAPI_get "/" health (FastAPI_get "/" root FastAPI_init))) root_probe
    = Handle root_route /\
  (reaches_openapi (FastAPI_get "/" root FastAPI_init) root_probe = false ->
   fst (serve {| st_app := FastAPI_get "/" health (FastAPI_get "/" root FastAPI_init);
                 st_heap := ∅ |} root_probe)
   = fst (serve {| st_app := FastAPI_get "/" root FastAPI_init; st_heap := ∅ |} root_probe)).
Proof.
  do 4 (split; [reflexivity|]).
  apply (earlier_route_keeps_its_requests _ "/" health ∅ root_probe root_route);
    reflexivity.
Defined.

Lemma reaches_openapi_app req :
  path_regex_match "/openapi.json" (path req) = false -> reaches_openapi app req = false.
Proof.
  intros Hp. unfold reaches_openapi.
  assert (S := Router_app_spec app req).
  destruct (Router_app (routes app) req) as [r| |]; try reflexivity.
  destruct S as [Hin Hm]. rewrite app_routes in Hin. simpl in Hin.
  destruct Hin as [<-|[<-|[<-|[<-|[<-|[<-|[]]]]]]]; try reflexivity.
  exfalso. apply Hm. now apply matches_NONE.
Qed.

(** X12. The order of the two decorators of main.py matters to the schema
    only: registering "/health" before "/" gives an application that
    answers every request whose path is not spelled like "/openapi.json"
    as main.py's does. *)
Theorem decorator_order_is_immaterial (h : gmap loc value) (req : Request) :
  path_regex_match "/openapi.json" (path req) = false ->
  fst (serve {| st_app := app_swapped; st_heap := h |} req)
  = fst (serve {| st_app := app; st_heap := h |} req).
Proof.
  intros Hp. apply serve_same_dispatch; [|now apply reaches_openapi_app].
  unfold Router_app.
  change (routes app_swapped) with (routes FastAPI_init ++ [health_route; root_route])%list.
  change (routes app) with (routes FastAPI_init ++ [root_route; health_route])%list.
  rewrite (matches_any_swap _ _ _ health_route root_route).
  rewrite (route_loop_swap _ _ _ health_route root_route); [reflexivity|].
  destruct (path_regex_match "/" (path req)) eqn:P.
  - left. apply matches_NONE. apply path_regex_match_spec in P.
    destruct P as [-> | ->]; reflexivity.
  - right. now apply matches_NONE.
Qed.

Lemma decorator_order_is_immaterial_witness :
  path_regex_match "/openapi.json" (path health_probe) = false /\
  fst (serve {| st_app := app_swapped; st_heap := ∅ |} health_probe)
  = fst (serve {| st_app := app; st_heap := ∅ |} health_probe).
Proof.
  split; [reflexivity|].
  apply decorator_order_is_immaterial. reflexivity.
Defined.

(** ** Trailing slashes *)

Lemma endswith_slash_slashes n : endswith_slash (slashes (S n)) = true.
Proof. induction n as [|n IH]; [reflexivity | exact IH]. Qed.

Lemma endswith_slash_app s n : endswith_slash (s ++ slashes (S n)) = true.
Proof.
  induction s as [|c s IH].
  - apply endswith_slash_slashes.
  - change (String c s ++ slashes (S n)) with (String c (s ++ slashes (S n))).
    destruct s as [|c' s]; exact IH.
Qed.

Lemma rstrip_slash_slashes n : rstrip_slash (slashes n) = EmptyString.
Proof. induction n as [|n IH]; [reflexivity | simpl; now rewrite IH]. Qed.

Lemma rstrip_slash_app s n : rstrip_slash (s ++ slashes n) = rstrip_slash s.
Proof.
  induction s as [|c s IH].
  - apply rstrip_slash_slashes.
  - change (String c s ++ slashes n) with (String c (s ++ slashes n)).
    simpl. now rewrite IH.
Qed.

(** Stripping gives back a path that does not end in a slash. *)
Lemma redirect_path_slashes s n :
  rstrip_slash s = s -> redirect_path (s ++ slashes (S n)) = s.
Proof.
  intros H. unfold redirect_path. now rewrite endswith_slash_app, rstrip_slash_app.
Qed.

(** X13. A request for "/health", or any registered path other than "/",
    followed by one or more slashes is not served: whatever its method, it
    is answered with the redirect 307, provided its query string is valid
    UTF-8. *)
Theorem trailing_slashes_redirect
    (hs : list Request) (req : Request) (q : string) (n : nat) :
  In q (registered_paths app) ->
  q <> "/" ->
  path req = q ++ slashes (S n) ->
  utf8_valid (query_string req) = true ->
  status_code (serve_after hs req) = 307.
Proof.
  intros Hq Hne Hp Hu. rewrite serve_after_response, status_spec, Hp, Hu.
  rewrite app_registered_paths in Hq. simpl in Hq.
  destruct Hq as [<-|[<-|[<-|[<-|[<-|[<-|[]]]]]]]; try contradiction;
    rewrite redirect_path_slashes by reflexivity;
    destruct n as [|[|n]]; reflexivity.
Qed.

Lemma trailing_slashes_redirect_witness :
  In "/health" (registered_paths app) /\
  "/health" <> "/" /\
  path (mkRequest "GET" "/health//" "probe=liveness" [] EmptyString) = "/health" ++ slashes 2 /\
  utf8_valid (query_string (mkRequest "GET" "/health//" "probe=liveness" [] EmptyString)) = true /\
  status_code (serve_after [root_probe]
                 (mkRequest "GET" "/health//" "probe=liveness" [] EmptyString)) = 307.
Proof.
  split; [right; right; right; right; right; left; reflexivity|].
  split; [discriminate|]. split; [reflexivity|]. split; [reflexivity|].
  apply (trailing_slashes_redirect _ _ "/health" 1%nat);
    [right; right; right; right; right; left; reflexivity | discriminate
    | reflexivity | reflexivity].
Defined.

(** X14. A path made of two or more slashes is not taken for "/": the
    request is answered with 404, whatever its method. *)
Theorem only_slashes_not_found (hs : list Request) (req : Request) (n : nat) :
  path req = slashes (S (S n)) ->
  status_code (serve_after hs req) = 404.
Proof.
  intros Hp. rewrite serve_after_response, status_spec, Hp.
  assert (R : redirect_path (slashes (S (S n))) = EmptyString).
  { unfold redirect_path. rewrite endswith_slash_slashes. apply rstrip_slash_slashes. }
  rewrite R. destruct n; reflexivity.
Qed.

Lemma only_slashes_not_found_witness :
  path (request "GET" "///") = slashes 3 /\
  status_code (serve_after [root_probe] (request "GET" "///")) = 404.
Proof.
  split; [reflexivity|].
  apply (only_slashes_not_found _ _ 1%nat). reflexivity.
Defined.
